(** * ESD dataset: sample assembly and subtile lookup (src/esd_data/dataset.py)

    A shallow embedding of the class [DSE]: band selection, time
    aggregation, stacking of the satellite sources, label extraction, and
    the lookup of a subtile by its (tile id, i, j) file name.

    - numpy arrays are a shape, the elements in C (row-major) order and
      an integer element type, in which the arithmetic on elements wraps
      around;
    - Python dicts are association lists in insertion order;
    - exceptions are the [Raise] results of an error monad;
    - the per-satellite metadata objects live in a store, so that the
      aliasing between the loaded metadata and the returned metadata is
      the one of the Python objects. *)

From Stdlib Require Import ZArith Arith Lia Ascii.
From stdpp Require Import base tactics option list numbers strings pretty sorting.


(** ** Exceptions and results *)

Inductive exn : Type :=
  | IndexError
  | KeyError (key : string)
  | ValueError (msg : string)
  | TypeError (msg : string)
  | AttributeError (msg : string).

Inductive result (A : Type) : Type :=
  | OK (a : A)
  | Raise (e : exn).
Arguments OK {A} a.
Arguments Raise {A} e.

Global Instance result_ret : MRet result := fun _ a => OK a.
Global Instance result_bind : MBind result := fun _ _ k r =>
  match r with
  | OK a => k a
  | Raise e => Raise e
  end.

(** A Python subscript [d[k]] on a lookup that returned [None] here. *)
Definition or_raise {A} (o : option A) (e : exn) : result A :=
  match o with
  | Some a => OK a
  | None => Raise e
  end.

(** ** numpy arrays *)

(** The element type of an array.  Element values are integers (the labels
    are class indices), and the types covered are the fixed-width integer
    types that numpy combines into an integer type again: it turns uint64
    with a signed type into float64, and arrays of floats are not modelled. *)
Inductive np_dtype : Type :=
  | int8 | int16 | int32 | int64
  | uint8 | uint16 | uint32.

Global Instance np_dtype_eq_dec : EqDecision np_dtype.
Proof. solve_decision. Defined.

Definition is_signed (t : np_dtype) : bool :=
  match t with
  | int8 | int16 | int32 | int64 => true
  | uint8 | uint16 | uint32 => false
  end.

Definition dtype_bits (t : np_dtype) : Z :=
  match t with
  | int8 | uint8 => 8
  | int16 | uint16 => 16
  | int32 | uint32 => 32
  | int64 => 64
  end.

(** [np.iinfo(t).min] and [np.iinfo(t).max] *)
Definition dtype_min (t : np_dtype) : Z :=
  if is_signed t then (- 2 ^ (dtype_bits t - 1))%Z else 0%Z.

Definition dtype_max (t : np_dtype) : Z :=
  if is_signed t then (2 ^ (dtype_bits t - 1) - 1)%Z else (2 ^ dtype_bits t - 1)%Z.

(** The value that integer arithmetic in the element type [t] stores for
    the exact result [v]: the one value of the type that differs from [v] by
    a multiple of 2^bits (numpy does not check integer overflow in array
    arithmetic). *)
Definition wrap (t : np_dtype) (v : Z) : Z :=
  ((v - dtype_min t) mod 2 ^ dtype_bits t + dtype_min t)%Z.

(** The signed type of at least [n] bits and the unsigned type of at least
    [n] bits. *)
Definition signed_of_bits (n : Z) : np_dtype :=
  if (n <=? 8)%Z then int8 else if (n <=? 16)%Z then int16
  else if (n <=? 32)%Z then int32 else int64.

Definition unsigned_of_bits (n : Z) : np_dtype :=
  if (n <=? 8)%Z then uint8 else if (n <=? 16)%Z then uint16 else uint32.

(** [np.result_type(a, b)]: the smallest type that holds every value of
    both; an unsigned type needs a signed type of twice its width. *)
Definition result_type (a b : np_dtype) : np_dtype :=
  match is_signed a, is_signed b with
  | true, true => signed_of_bits (Z.max (dtype_bits a) (dtype_bits b))
  | false, false => unsigned_of_bits (Z.max (dtype_bits a) (dtype_bits b))
  | true, false => signed_of_bits (Z.max (dtype_bits a) (2 * dtype_bits b))
  | false, true => signed_of_bits (Z.max (2 * dtype_bits a) (dtype_bits b))
  end.

(** An ndarray: its shape, its elements in C order and its element type. *)
Record ndarray : Type := mk_ndarray { shape : list nat; data : list Z; dtype : np_dtype }.

Definition prod_list (l : list nat) : nat := foldr Nat.mul 1 l.

(** [a.size] *)
Definition np_size (a : ndarray) : nat := prod_list (shape a).

(** The contiguous run [l[off : off+len]]. *)
Definition slice {A} (off len : nat) (l : list A) : list A := take len (drop off l).

(** [np.reshape(a, newshape)]: the elements keep their C order; numpy raises
    ValueError when the sizes differ. *)
Definition np_reshape (a : ndarray) (newshape : list nat) : result ndarray :=
  if decide (prod_list newshape = np_size a)
  then OK (mk_ndarray newshape (data a) (dtype a))
  else Raise (ValueError "cannot reshape array").

(** [a[:, indices, :, :]] with a list of non-negative integer indices: the
    array needs at least four axes, every index must be inside axis 1, and
    the result holds, for every position of axis 0, the blocks of the listed
    positions of axis 1 in the order of the list. *)
Definition take_bands (a : ndarray) (indices : list nat) : result ndarray :=
  match shape a with
  | t :: b :: h :: w :: rest =>
      if decide (Forall (fun i => i < b) indices)
      then
        let blk := prod_list (h :: w :: rest) in
        OK (mk_ndarray (t :: length indices :: h :: w :: rest)
              (flat_map
                 (fun ti => flat_map (fun i => slice ((ti * b + i) * blk) blk (data a)) indices)
                 (seq 0 t))
              (dtype a))
      else Raise IndexError
  | _ => Raise IndexError
  end.

(** [np.squeeze(y, axis=0)] *)
Definition np_squeeze0 (y : ndarray) : result ndarray :=
  match shape y with
  | 1 :: rest => OK (mk_ndarray rest (data y) (dtype y))
  | _ :: _ => Raise (ValueError "cannot select an axis to squeeze out which has size not equal to one")
  | [] => Raise (ValueError "axis 0 is out of bounds for array of dimension 0")
  end.

(** [np.concatenate((x, a))] along axis 0; the result has the common element
    type of the two, which holds every element of both unchanged. *)
Definition np_concatenate (x a : ndarray) : result ndarray :=
  match shape x, shape a with
  | x0 :: xrest, a0 :: arest =>
      if decide (xrest = arest)
      then OK (mk_ndarray (x0 + a0 :: xrest) (data x ++ data a)
                 (result_type (dtype x) (dtype a)))
      else Raise (ValueError "all the input array dimensions except for the concatenation axis must match exactly")
  | _, _ => Raise (ValueError "zero-dimensional arrays cannot be concatenated")
  end.

(** [y - k] for a Python int [k] that the element type of [y] holds: the
    result has the element type of [y], and every element is computed in
    that type. *)
Definition sub_scalar (y : ndarray) (k : Z) : ndarray :=
  mk_ndarray (shape y) ((fun v => wrap (dtype y) (v - k)) <$> data y) (dtype y).

(** [y + k], likewise. *)
Definition add_scalar (y : ndarray) (k : Z) : ndarray :=
  mk_ndarray (shape y) ((fun v => wrap (dtype y) (v + k)) <$> data y) (dtype y).

(** Element access in C order: [a[t, b, y, x]] of a 4-axis array and
    [a[p, y, x]] of a 3-axis array. *)
Definition get4 (a : ndarray) (t b y x : nat) : option Z :=
  match shape a with
  | [T; B; H; W] =>
      if decide (t < T /\ b < B /\ y < H /\ x < W)
      then data a !! (((t * B + b) * H + y) * W + x)
      else None
  | _ => None
  end.

Definition get3 (a : ndarray) (p y x : nat) : option Z :=
  match shape a with
  | [P; H; W] =>
      if decide (p < P /\ y < H /\ x < W)
      then data a !! ((p * H + y) * W + x)
      else None
  | _ => None
  end.

(** The elements are as many as the shape says. *)
Definition wf_array (a : ndarray) : Prop := length (data a) = np_size a.

(** The value [v] is one of the element type [t]. *)
Definition holds (t : np_dtype) (v : Z) : Prop := (dtype_min t <= v <= dtype_max t)%Z.

(** Every element is a value of the element type of the array. *)
Definition in_range (a : ndarray) : Prop := Forall (holds (dtype a)) (data a).

(** ** Python dicts, in insertion order *)

Abbreviation dict V := (list (string * V)) (only parsing).

Fixpoint dict_get {V} (k : string) (d : dict V) : option V :=
  match d with
  | [] => None
  | (k', v) :: d' => if decide (k = k') then Some v else dict_get k d'
  end.

(** [d[k] = v]: an existing key keeps its position, a new key goes last. *)
Fixpoint dict_set {V} (k : string) (v : V) (d : dict V) : dict V :=
  match d with
  | [] => [(k, v)]
  | (k', v') :: d' => if decide (k = k') then (k', v) :: d' else (k', v') :: dict_set k v d'
  end.

(** [d[k]] *)
Definition dict_getitem {V} (k : string) (d : dict V) : result V :=
  or_raise (dict_get k d) (KeyError k).

Definition dict_keys {V} (d : dict V) : list string := d.*1.

(** [l[i]] on a Python list: negative indices count from the end. *)
Definition py_index {A} (l : list A) (i : Z) : result A :=
  if decide (0 <= i)%Z then or_raise (l !! Z.to_nat i) IndexError
  else or_raise (if decide (- Z.of_nat (length l) <= i)%Z
                 then l !! Z.to_nat (Z.of_nat (length l) + i) else None) IndexError.

(** ** The subtile bundle and its metadata objects *)

(** Modelled from the spec: the metadata classes of
    src/preprocessing/subtile_esd_hw02.py are not part of the sources.  The
    metadata record holds, per satellite-source name, an ordered list of band
    names; the code reads and writes it as
    [tile_metadata.satellites[key].bands]. *)
Record SatelliteMetadata : Type := mk_satellite { bands : list string }.

(** The per-satellite metadata objects are mutable and shared by reference:
    a store of objects, addressed by position. *)
Abbreviation loc := nat (only parsing).
Abbreviation store := (list SatelliteMetadata) (only parsing).

(** Modelled from the spec: the metadata record of a tile, as the dict
    [satellites] from source name to (a reference to) the metadata object of
    the source. *)
Record TileMetadata : Type := mk_metadata { satellites : dict loc }.

(** Modelled from the spec: the subtile bundle, a mapping from source name
    to a 4-axis array (time, band, height, width) plus the metadata record. *)
Record Subtile : Type := mk_subtile {
  satellite_stack : dict ndarray;
  tile_metadata : TileMetadata
}.

(** What one subtile file holds: the arrays and the band lists per source. *)
Record SubtileFile : Type := mk_file {
  file_stack : dict ndarray;
  file_bands : dict (list string)
}.

(** Reading [obj.bands] through a reference. *)
Definition get_bands (s : store) (l : loc) : result (list string) :=
  or_raise (bands <$> s !! l) (AttributeError "bands").

(** [obj.bands = v] through a reference. *)
Definition set_bands (s : store) (l : loc) (v : list string) : result store :=
  match s !! l with
  | Some _ => OK (<[l := mk_satellite v]> s)
  | None => Raise (AttributeError "bands")
  end.

(** The band list the metadata [m] shows for source [key] in store [s]. *)
Definition bands_of (s : store) (m : TileMetadata) (key : string) : option (list string) :=
  l ← dict_get key (satellites m); bands <$> s !! l.

(** Everything the metadata [m] shows in store [s]. *)
Definition metadata_view (s : store) (m : TileMetadata) : dict (option (list string)) :=
  map (fun '(k, l) => (k, bands <$> s !! l)) (satellites m).

(** [deepcopy] of the satellites dict: every object reachable from it is
    copied once (the memo keeps shared objects shared). *)
Fixpoint deepcopy_satellites (d : dict loc) (memo : list (loc * loc)) (s : store)
  : result (dict loc * store) :=
  match d with
  | [] => OK ([], s)
  | (k, l) :: d' =>
      match list_find (fun p => p.1 = l) memo with
      | Some (_, (_, l')) =>
          '(r, s') ← deepcopy_satellites d' memo s;
          OK ((k, l') :: r, s')
      | None =>
          b ← get_bands s l;
          let l' := length s in
          '(r, s') ← deepcopy_satellites d' ((l, l') :: memo) (s ++ [mk_satellite b]);
          OK ((k, l') :: r, s')
      end
  end.

(** [deepcopy(tile_metadata)] *)
Definition deepcopy (m : TileMetadata) (s : store) : result (TileMetadata * store) :=
  '(d, s') ← deepcopy_satellites (satellites m) [] s;
  OK (mk_metadata d, s').

(** Modelled from the spec: the loader [Subtile().load(path)] is an external
    collaborator; it returns a fresh bundle, with one metadata object per
    source of the file. *)
Definition Subtile_of_file (f : SubtileFile) : Subtile * store :=
  (mk_subtile (file_stack f)
     (mk_metadata (imap (fun n kv => (kv.1, n)) (file_bands f))),
   map (fun kv => mk_satellite kv.2) (file_bands f)).

(** ** The dataset *)

Record Path : Type := mk_path { parent : string; name : string }.

(** The input under construction: the empty Python list [list()] or an array. *)
Inductive xval : Type :=
  | XList
  | XArray (a : ndarray).

Definition Transform : Type := xval -> ndarray -> result (xval * ndarray).

Record DSE : Type := mk_DSE {
  root_dir : string;
  selected_bands : option (dict (list string));
  transform : option Transform;
  tiles : list Path
}.

Definition Sample : Type := xval * ndarray * TileMetadata.

(** [__len__] *)
Definition len (ds : DSE) : nat := length (tiles ds).

(** [__aggregate_time] *)
Definition aggregate_time (img : ndarray) : result ndarray :=
  match shape img with
  | s0 :: s1 :: s2 :: s3 :: _ => np_reshape img [s0 * s1; s2; s3]
  | _ => Raise IndexError
  end.

(** [__select_indices] *)
Definition select_indices (bands selected_bands : list string) : list nat :=
  (filter (fun iv => iv.2 ∈ selected_bands) (imap (fun index value => (index, value)) bands)).*1.

(** The body of the loop of [__select_bands], for one key of the selection. *)
Definition select_bands_step (sel : dict (list string)) (subtile : Subtile)
    (acc : dict ndarray * TileMetadata * store) (key : string)
  : result (dict ndarray * TileMetadata * store) :=
  let '(selected_satellite_stack, new_metadata, s) := acc in
  l ← dict_getitem key (satellites (tile_metadata subtile));
  satellite_bands ← get_bands s l;
  selected_bands ← dict_getitem key sel;
  let indices := select_indices satellite_bands selected_bands in
  let new_metadata := mk_metadata (dict_set key l (satellites new_metadata)) in
  s ← set_bands s l selected_bands;
  arr ← dict_getitem key (satellite_stack subtile);
  sliced ← take_bands arr indices;
  OK (dict_set key sliced selected_satellite_stack, new_metadata, s).

Fixpoint select_bands_loop (sel : dict (list string)) (subtile : Subtile)
    (keys : list string) (acc : dict ndarray * TileMetadata * store)
  : result (dict ndarray * TileMetadata * store) :=
  match keys with
  | [] => OK acc
  | key :: keys' =>
      acc' ← select_bands_step sel subtile acc key;
      select_bands_loop sel subtile keys' acc'
  end.

(** [__select_bands] *)
Definition select_bands (ds : DSE) (subtile : Subtile) (s : store)
  : result (dict ndarray * TileMetadata * store) :=
  '(new_metadata, s) ← deepcopy (tile_metadata subtile) s;
  match selected_bands ds with
  | Some sel =>
      select_bands_loop sel subtile (dict_keys sel) ([], mk_metadata [], s)
  | None => OK (satellite_stack subtile, new_metadata, s)
  end.

(** [len(X)] *)
Definition py_len (X : xval) : result nat :=
  match X with
  | XList => OK 0
  | XArray a =>
      match shape a with
      | n :: _ => OK n
      | [] => Raise (TypeError "len() of unsized object")
      end
  end.

(** The stacking loop of [__getitem__] over [satellite_stack.items()].  [X]
    is the empty list until a source has been stacked and an array from then
    on: [len(X) == 0] holds of the list, and of an array whose first axis is
    empty. *)
Fixpoint stack_loop (items : dict ndarray) (X : xval) : result xval :=
  match items with
  | [] => OK X
  | (satellite_type, stack) :: items' =>
      if decide (satellite_type ≠ "gt")
      then
        X' ← match X with
              | XList => aggregate_time stack
              | XArray x =>
                  n ← py_len X;
                  if decide (n = 0)
                  then aggregate_time stack
                  else a ← aggregate_time stack; np_concatenate x a
              end;
        stack_loop items' (XArray X')
      else stack_loop items' X
  end.

Section Loader.

(** The external loader, as the content of the file at a path. *)
Variable load : Path -> result SubtileFile.

(** [Subtile().load(path)] *)
Definition Subtile_load (p : Path) : result (Subtile * store) :=
  f ← load p; OK (Subtile_of_file f).

(** [__getitem__]; the store comes with the sample, since the returned
    metadata refers to objects in it. *)
Definition getitem (ds : DSE) (idx : Z) : result (Sample * store) :=
  path ← py_index (tiles ds) idx;
  '(subtile, s) ← Subtile_load path;
  '(selected_stack, metadata, s) ← select_bands ds subtile s;
  y ← dict_getitem "gt" (satellite_stack subtile);
  X ← stack_loop selected_stack XList;
  y ← np_squeeze0 y;
  '(X, y) ← match transform ds with
            | Some f => f X y
            | None => OK (X, y)
            end;
  OK ((X, sub_scalar y 1, metadata), s).

End Loader.

(** ** The file-name pattern of [find_subtile] *)

(** The fragment of regular expressions the pattern uses: a literal
    character, [.] (any character but a newline) and a captured [(\d+)]. *)
Inductive item : Type :=
  | Lit (c : ascii)
  | Dot
  | Digits.

Global Instance item_eq_dec : EqDecision item.
Proof. solve_decision. Defined.

Definition is_digit (c : ascii) : bool :=
  (48 <=? nat_of_ascii c) && (nat_of_ascii c <=? 57).

Definition newline : ascii := ascii_of_nat 10.

(** Length of the longest prefix of digits. *)
Fixpoint digit_run (s : string) : nat :=
  match s with
  | String c s' => if is_digit c then S (digit_run s') else 0
  | EmptyString => 0
  end.

Fixpoint str_take (n : nat) (s : string) : string :=
  match n, s with
  | S n', String c s' => String c (str_take n' s')
  | _, _ => EmptyString
  end.

Fixpoint str_drop (n : nat) (s : string) : string :=
  match n, s with
  | S n', String _ s' => str_drop n' s'
  | _, _ => s
  end.

(** Greedy repetition with backtracking: the longest run first, then
    shorter ones, down to one character. *)
Fixpoint try_down {A} (k : nat) (f : nat -> option A) : option A :=
  match k with
  | 0 => None
  | S k' =>
      match f k with
      | Some r => Some r
      | None => try_down k' f
      end
  end.

(** Match the items at the start of [s]; the result is the captured groups,
    in order. *)
Fixpoint match_here (p : list item) (s : string) : option (list string) :=
  match p with
  | [] => Some []
  | Lit c :: p' =>
      match s with
      | String c' s' => if decide (c = c') then match_here p' s' else None
      | EmptyString => None
      end
  | Dot :: p' =>
      match s with
      | String c' s' => if decide (c' = newline) then None else match_here p' s'
      | EmptyString => None
      end
  | Digits :: p' =>
      try_down (digit_run s)
        (fun k => g ← match_here p' (str_drop k s); Some (str_take k s :: g))
  end.

(** [pattern.search(s)]: the leftmost start at which the items match. *)
Fixpoint re_search (p : list item) (s : string) : option (list string) :=
  match match_here p s with
  | Some g => Some g
  | None =>
      match s with
      | String _ s' => re_search p s'
      | EmptyString => None
      end
  end.

Fixpoint lits (s : string) : list item :=
  match s with
  | String c s' => Lit c :: lits s'
  | EmptyString => []
  end.

(** [re.compile('Tile(\d+)_(\d+)_(\d+).npz')] *)
Definition pattern : list item :=
  lits "Tile" ++ [Digits] ++ lits "_" ++ [Digits] ++ lits "_" ++ [Digits] ++ [Dot] ++ lits "npz".

(** [result.group(n)] on the result of [search], which is [None] when
    nothing matched. *)
Definition group (r : option (list string)) (n : nat) : result string :=
  match r with
  | None => Raise (AttributeError "'NoneType' object has no attribute 'group'")
  | Some g => or_raise (g !! (n - 1)) IndexError
  end.

Definition digit_value (c : ascii) : Z := Z.of_nat (nat_of_ascii c - 48).

Fixpoint int_acc (s : string) (acc : Z) : Z :=
  match s with
  | String c s' => int_acc s' (10 * acc + digit_value c)
  | EmptyString => acc
  end.

Fixpoint all_digits (s : string) : bool :=
  match s with
  | String c s' => is_digit c && all_digits s'
  | EmptyString => true
  end.

(** [int(s)], for the strings a [(\d+)] group can hold: a non-empty run of
    decimal digits; anything else is a ValueError here. *)
Definition py_int (s : string) : result Z :=
  if all_digits s && negb (String.eqb s "")
  then OK (int_acc s 0)
  else Raise (ValueError "invalid literal for int() with base 10").

(** The message of the lookup error,
    [f'Could not find Tile{tile_id}_{i}_{j}.npz in the dataset']. *)
Definition tile_name (tile_id i j : Z) : string :=
  "Tile" +:+ pretty tile_id +:+ "_" +:+ pretty i +:+ "_" +:+ pretty j +:+ ".npz".

Definition not_found_message (tile_id i j : Z) : string :=
  "Could not find " +:+ tile_name tile_id i j +:+ " in the dataset".

Section Lookup.

Variable load : Path -> result SubtileFile.

(** The loop of [find_subtile] over [enumerate(self.tiles)], from position
    [k] on; falling off the end raises the lookup error. *)
Fixpoint find_loop (ds : DSE) (tile_id i j : Z) (k : nat) (rest : list Path)
  : result (Sample * store) :=
  match rest with
  | [] => Raise (ValueError (not_found_message tile_id i j))
  | subtile :: rest' =>
      let result := re_search pattern (name subtile) in
      id_value ← group result 1;
      x ← group result 2;
      y ← group result 3;
      a ← py_int id_value;
      if decide (tile_id = a)
      then
        b ← py_int x;
        if decide (i = b)
        then
          c ← py_int y;
          if decide (j = c)
          then getitem load ds (Z.of_nat k)
          else find_loop ds tile_id i j (S k) rest'
        else find_loop ds tile_id i j (S k) rest'
      else find_loop ds tile_id i j (S k) rest'
  end.

(** [find_subtile] *)
Definition find_subtile (ds : DSE) (tile_id i j : Z) : result (Sample * store) :=
  find_loop ds tile_id i j 0 (tiles ds).

End Lookup.

(** What a file name parses to, when the pattern matches it. *)
Definition parse_name (n : string) : option (Z * Z * Z) :=
  match re_search pattern n with
  | Some [a; b; c] =>
      match py_int a, py_int b, py_int c with
      | OK a, OK b, OK c => Some (a, b, c)
      | _, _, _ => None
      end
  | _ => None
  end.

(** ** Concrete datasets *)

(** The scenario of the specification: one file [Tile1_0_0.npz], a
    ground truth of shape (1,1,4,4) with values in {1,2,3} and one other
    source of shape (2,3,4,4). *)
Definition scenario_gt : ndarray :=
  mk_ndarray [1; 1; 4; 4] [1; 2; 3; 1; 2; 3; 1; 2; 3; 1; 2; 3; 1; 2; 3; 1]%Z uint8.

Definition scenario_file : SubtileFile :=
  mk_file
    [("sentinel2", mk_ndarray [2; 3; 4; 4] (Z.of_nat <$> seq 0 96) int16); ("gt", scenario_gt)]
    [("sentinel2", ["B02"; "B03"; "B04"]); ("gt", ["gt"])].

(** A second file, with two sources of one pixel each. *)
Definition small_file : SubtileFile :=
  mk_file
    [("sentinel1", mk_ndarray [2; 2; 1; 1] [10; 11; 20; 21]%Z int16);
     ("viirs", mk_ndarray [1; 1; 1; 1] [5]%Z int16);
     ("gt", mk_ndarray [1; 1; 1; 1] [4]%Z uint8)]
    [("sentinel1", ["VV"; "VH"]); ("viirs", ["0"]); ("gt", ["gt"])].

Definition example_load (p : Path) : result SubtileFile :=
  if decide (name p = "Tile1_0_0.npz") then OK scenario_file
  else if decide (name p = "Tile01_0_0.npz") then OK small_file
  else if decide (name p = "Tile2_0_0.npz") then OK small_file
  else Raise (ValueError "not a subtile file").

Definition example_ds (sel : option (dict (list string))) (names : list string) : DSE :=
  mk_DSE "data" sel None (mk_path "data" <$> names).

(** ** Concrete bundles for the edge cases *)

(** A bundle without ground truth. *)
Definition no_gt_file : SubtileFile :=
  mk_file
    [("sentinel1", mk_ndarray [2; 2; 1; 1] [10; 11; 20; 21]%Z int16)]
    [("sentinel1", ["VV"; "VH"])].

(** A bundle whose ground truth has two time steps. *)
Definition two_times_gt_file : SubtileFile :=
  mk_file
    [("viirs", mk_ndarray [1; 1; 1; 1] [5]%Z int16); ("gt", mk_ndarray [2; 1; 1; 1] [4; 4]%Z uint8)]
    [("viirs", ["0"]); ("gt", ["gt"])].

(** A bundle whose sources differ in height and width. *)
Definition mismatch_file : SubtileFile :=
  mk_file
    [("sentinel1", mk_ndarray [2; 2; 1; 1] [10; 11; 20; 21]%Z int16);
     ("landsat", mk_ndarray [1; 1; 2; 2] [1; 2; 3; 4]%Z int16);
     ("gt", mk_ndarray [1; 1; 1; 1] [4]%Z uint8)]
    [("sentinel1", ["VV"; "VH"]); ("landsat", ["B1"]); ("gt", ["gt"])].

(** A bundle whose ground truth, of element type uint8, holds the value 0
    next to the class 2. *)
Definition zero_gt_file : SubtileFile :=
  mk_file
    [("viirs", mk_ndarray [1; 1; 1; 2] [5; 6]%Z int16);
     ("gt", mk_ndarray [1; 1; 1; 2] [0; 2]%Z uint8)]
    [("viirs", ["0"]); ("gt", ["gt"])].

Definition edge_load (p : Path) : result SubtileFile :=
  if decide (name p = "Tile3_0_0.npz") then OK no_gt_file
  else if decide (name p = "Tile4_0_0.npz") then OK two_times_gt_file
  else if decide (name p = "Tile5_0_0.npz") then OK mismatch_file
  else if decide (name p = "Tile007_01_2_npz.npz") then OK small_file
  else if decide (name p = "Tile6_0_0.npz") then OK zero_gt_file
  else Raise (ValueError "not a subtile file").

Definition edge_ds (sel : option (dict (list string))) (names : list string) : DSE :=
  mk_DSE "data" sel None (mk_path "data" <$> names).

(** A transform that leaves the input and adds 10 to the label. *)
Definition add_ten : Transform := fun X y => OK (X, add_scalar y 10).

(** ** Notions used in the statements *)

(** time × band of a source array. *)
Definition time_band (a : ndarray) : nat :=
  match shape a with
  | t :: b :: _ => t * b
  | _ => 0
  end.

(** The arrays of the sources other than the ground truth, in dict order. *)
Definition non_gt (stack : dict ndarray) : list ndarray :=
  (filter (fun kv => kv.1 ≠ "gt") stack).*2.

(** A 4-axis array with the given height and width. *)
Definition has_hw (h w : nat) (a : ndarray) : bool :=
  match shape a with
  | [_; _; h'; w'] => bool_decide (h' = h) && bool_decide (w' = w)
  | _ => false
  end.

(** Every source other than the ground truth is a 4-axis array of one
    common height and width (the invariant of the data model). *)
Definition stackable (h w : nat) (stack : dict ndarray) : bool :=
  forallb (fun kv => bool_decide (kv.1 = "gt") || has_hw h w kv.2) stack.

(** The selection fits the file: its keys are distinct, and every key names
    a source of the file that has a band list and an array with at least four
    axes, the band axis at least as long as the band list; the sources other
    than the ground truth share height and width. *)
Definition selection_ok (h w : nat) (sel : dict (list string)) (f : SubtileFile) : bool :=
  bool_decide (NoDup (dict_keys sel)) &&
  forallb
    (fun kv =>
       match dict_get kv.1 (file_bands f), dict_get kv.1 (file_stack f) with
       | Some bs, Some a =>
           match shape a with
           | _ :: b :: _ :: _ :: _ =>
               bool_decide (length bs <= b) && (bool_decide (kv.1 = "gt") || has_hw h w a)
           | _ => false
           end
       | _, _ => false
       end)
    sel.

Definition bundle_ok (h w : nat) (sel : option (dict (list string))) (f : SubtileFile) : bool :=
  match sel with
  | None => stackable h w (file_stack f)
  | Some sl => selection_ok h w sl f
  end.

(** The input under construction fits the common height and width. *)
Definition x_hw (h w : nat) (X : xval) : Prop :=
  match X with
  | XList => True
  | XArray a => exists n, shape a = [n; h; w]
  end.

(** The elements of the input, none for the empty list, and the input
    holding as many elements as its shape says. *)
Definition x_data (X : xval) : list Z :=
  match X with
  | XList => []
  | XArray a => data a
  end.

Definition x_wf (X : xval) : Prop :=
  match X with
  | XList => True
  | XArray a => wf_array a
  end.

(** The position of the metadata object of source [k] in the store of a
    freshly loaded file, and the band list, request, array and band
    positions that belong to [k]. *)
Definition object_of (f : SubtileFile) (k : string) : loc :=
  default 0 (dict_get k (satellites (tile_metadata (Subtile_of_file f).1))).

Definition bands_in_file (f : SubtileFile) (k : string) : list string :=
  default [] (dict_get k (file_bands f)).

Definition requested (sel : dict (list string)) (k : string) : list string :=
  default [] (dict_get k sel).

Definition array_in_file (f : SubtileFile) (k : string) : ndarray :=
  default (mk_ndarray [] [] int64) (dict_get k (file_stack f)).

(** The array of source [k] restricted to the positions of its bands that
    occur in the request, in the order of the source. *)
Definition sliced_source (sel : dict (list string)) (f : SubtileFile) (k : string) : ndarray :=
  match take_bands (array_in_file f k)
          (select_indices (bands_in_file f k) (requested sel k)) with
  | OK a => a
  | Raise _ => mk_ndarray [] [] int64
  end.

(** The store once the selection has been applied to the objects of its
    keys. *)
Definition store_after_selection (sel : dict (list string)) (f : SubtileFile)
    (s : store) : store :=
  foldl (fun s k => <[object_of f k := mk_satellite (requested sel k)]> s) s (dict_keys sel).

(** Number of captured groups of a pattern. *)
Definition group_count (p : list item) : nat :=
  length (filter (fun it => it = Digits) p).

(** What a captured [(\d+)] group holds: a non-empty run of digits. *)
Definition digit_string (s : string) : Prop :=
  all_digits s = true /\ s <> "".

(** The character [c] does not occur in [s]. *)
Fixpoint no_char (c : ascii) (s : string) : bool :=
  match s with
  | String a s' => bool_decide (a <> c) && no_char c s'
  | EmptyString => true
  end.

(** * Properties *)

(** ** Arrays *)

Lemma prod_list_4 (t b h w : nat) :
  prod_list [t * b; h; w] = prod_list [t; b; h; w].
Proof. unfold prod_list; simpl. lia. Qed.

Lemma aggregate_time_4d (img : ndarray) (t b h w : nat) :
  shape img = [t; b; h; w] ->
  aggregate_time img = OK (mk_ndarray [t * b; h; w] (data img) (dtype img)).
Proof.
  intros Hs. unfold aggregate_time, np_reshape, np_size. rewrite Hs.
  rewrite decide_True by apply prod_list_4. reflexivity.
Qed.

Lemma flat_index_lt (t b T B : nat) : b < B -> (t * B + b < T * B <-> t < T).
Proof. intros Hb. split; intros H; nia. Qed.

(** C9. Time aggregation of a (time, band, h, w) array yields the
    (time·band, h, w) array whose entry at first-axis position
    [t·band + b] is the entry of the input at [(t, b)]: the two leading axes
    are collapsed in row-major order, time varying slower than band. *)
Theorem aggregate_time_row_major (img : ndarray) (T B H W : nat) :
  shape img = [T; B; H; W] ->
  exists out,
    aggregate_time img = OK out /\
    shape out = [T * B; H; W] /\
    forall t b y x, b < B -> get3 out (t * B + b) y x = get4 img t b y x.
Proof.
  intros Hs. eexists. split; [apply (aggregate_time_4d _ _ _ _ _ Hs)|].
  split; [reflexivity|]. intros t b y x Hb.
  unfold get3, get4. rewrite Hs. simpl.
  pose proof (flat_index_lt t b T B Hb) as Hlt.
  destruct (decide (t * B + b < T * B /\ y < H /\ x < W)) as [Hd|Hd];
    destruct (decide (t < T /\ b < B /\ y < H /\ x < W)) as [He|He];
    try reflexivity; exfalso; tauto.
Qed.

Lemma has_hw_shape (h w : nat) (a : ndarray) :
  has_hw h w a = true -> exists t b, shape a = [t; b; h; w].
Proof.
  unfold has_hw. destruct (shape a) as [|t [|b [|h' [|w' [|? ?]]]]]; try discriminate.
  intros H. apply andb_true_iff in H as [H1 H2].
  apply bool_decide_eq_true in H1, H2. subst. eauto.
Qed.

Lemma time_band_4d (a : ndarray) (t b h w : nat) :
  shape a = [t; b; h; w] -> time_band a = t * b.
Proof. unfold time_band. intros ->. reflexivity. Qed.

Lemma non_gt_cons_ne (k : string) (a : ndarray) (items : dict ndarray) :
  k ≠ "gt" -> non_gt ((k, a) :: items) = a :: non_gt items.
Proof. intros H. unfold non_gt. rewrite filter_cons_True by exact H. reflexivity. Qed.

Lemma non_gt_cons_eq (k : string) (a : ndarray) (items : dict ndarray) :
  k = "gt" -> non_gt ((k, a) :: items) = non_gt items.
Proof.
  intros H. unfold non_gt. rewrite filter_cons_False; [reflexivity|].
  simpl. intros Hne. exact (Hne H).
Qed.

(** The stacking loop on sources of one height and width: it returns, and
    the first axis and the elements of the result are those of the
    aggregated sources, one after the other. *)
Lemma stack_loop_ok (h w : nat) (items : dict ndarray) :
  stackable h w items = true ->
  forall X n,
    x_hw h w X -> py_len X = OK n ->
    exists X',
      stack_loop items X = OK X' /\
      x_hw h w X' /\
      py_len X' = OK (n + sum_list (time_band <$> non_gt items)).
Proof.
  induction items as [|[k a] items IH]; intros Hst X n HX Hn.
  - exists X. simpl. rewrite Nat.add_0_r. auto.
  - simpl in Hst. apply andb_true_iff in Hst as [Hka Hst]. simpl in Hka.
    simpl. destruct (decide (k ≠ "gt")) as [Hk|Hk].
    + apply orb_true_iff in Hka as [Hka|Hka];
        [apply bool_decide_eq_true in Hka; contradiction|].
      destruct (has_hw_shape _ _ _ Hka) as (t & b & Hs).
      rewrite (non_gt_cons_ne _ _ _ Hk). rewrite !fmap_cons. simpl.
      rewrite (time_band_4d _ _ _ _ _ Hs).
      rewrite (aggregate_time_4d _ _ _ _ _ Hs).
      assert (n = 0 ->
              exists X',
                stack_loop items (XArray (mk_ndarray [t * b; h; w] (data a) (dtype a))) = OK X' /\
                x_hw h w X' /\
                py_len X' = OK (n + (t * b + sum_list (time_band <$> non_gt items)))) as Hfirst.
      { intros ->.
        destruct (IH Hst (XArray (mk_ndarray [t * b; h; w] (data a) (dtype a))) (t * b))
          as (X' & H1 & H2 & H3); [simpl; eauto|reflexivity|].
        exists X'. repeat split; auto. }
      destruct X as [|x].
      { simpl in Hn. injection Hn as <-. cbn [mbind result_bind]. apply Hfirst. reflexivity. }
      rewrite Hn. cbn [mbind result_bind].
      destruct (decide (n = 0)) as [Hn0|Hn0]; cbn [mbind result_bind].
      * apply Hfirst, Hn0.
      * destruct HX as (m & Hx). simpl in Hn. rewrite Hx in Hn.
        injection Hn as ->. simpl. unfold np_concatenate. rewrite Hx. simpl.
        rewrite decide_True by reflexivity.
        destruct (IH Hst (XArray (mk_ndarray [n + t * b; h; w] (data x ++ data a) (result_type (dtype x) (dtype a))))
                    (n + t * b))
          as (X' & H1 & H2 & H3); [simpl; eauto|reflexivity|].
        exists X'. repeat split; auto.
        rewrite H3. f_equal. lia.
    + assert (k = "gt") as Hk' by (destruct (decide (k = "gt")); [auto|contradiction]).
      rewrite (non_gt_cons_eq _ _ _ Hk'). apply IH; auto.
Qed.

(** ** Dicts *)

Lemma dict_get_elem_of {V} (k : string) (v : V) (d : dict V) :
  dict_get k d = Some v -> (k, v) ∈ d.
Proof.
  induction d as [|[k' v'] d IH]; simpl; [discriminate|].
  destruct (decide (k = k')) as [->|Hk].
  - intros [= ->]. apply list_elem_of_here.
  - intros H. apply list_elem_of_further. apply IH, H.
Qed.

Lemma dict_get_None {V} (k : string) (d : dict V) :
  dict_get k d = None <-> k ∉ d.*1.
Proof.
  induction d as [|[k' v'] d IH]; simpl.
  - split; [intros _; apply not_elem_of_nil|reflexivity].
  - rewrite not_elem_of_cons. destruct (decide (k = k')) as [->|Hk].
    + split; [discriminate|intros [H _]; contradiction].
    + rewrite IH. tauto.
Qed.

Lemma dict_set_fresh {V} (k : string) (v : V) (d : dict V) :
  k ∉ d.*1 -> dict_set k v d = d ++ [(k, v)].
Proof.
  induction d as [|[k' v'] d IH]; simpl; [reflexivity|].
  rewrite not_elem_of_cons. intros [Hk Hd].
  rewrite decide_False by exact Hk. rewrite IH by exact Hd. reflexivity.
Qed.

(** Filling a dict key by key, with distinct new keys, lists them in order. *)
Lemma foldl_dict_set {V} (v : string -> V) (ks : list string) (d : dict V) :
  NoDup ks -> (forall k, k ∈ ks -> k ∉ d.*1) ->
  foldl (fun d k => dict_set k (v k) d) d ks = d ++ ((fun k => (k, v k)) <$> ks).
Proof.
  revert d. induction ks as [|k ks IH]; intros d Hnd Hfresh; simpl.
  - rewrite app_nil_r. reflexivity.
  - apply NoDup_cons in Hnd as [Hk Hnd].
    rewrite dict_set_fresh by (apply Hfresh, list_elem_of_here).
    rewrite IH; [rewrite <- app_assoc; reflexivity|exact Hnd|].
    intros k' Hk'. rewrite fmap_app. simpl. rewrite elem_of_app, list_elem_of_singleton.
    intros [H| ->]; [|contradiction].
    revert H. apply Hfresh, list_elem_of_further, Hk'.
Qed.

Lemma dict_get_fmap_keys {V} (v : string -> V) (ks : list string) (k : string) :
  k ∈ ks -> dict_get k ((fun k => (k, v k)) <$> ks) = Some (v k).
Proof.
  induction ks as [|k' ks IH]; intros Hk; [by apply elem_of_nil in Hk|].
  simpl. destruct (decide (k = k')) as [->|Hne]; [reflexivity|].
  apply elem_of_cons in Hk as [Hk|Hk]; [contradiction|]. apply IH, Hk.
Qed.

Lemma fmap_keys_fst {V} (v : string -> V) (ks : list string) :
  ((fun k => (k, v k)) <$> ks).*1 = ks.
Proof. induction ks as [|k ks IH]; [reflexivity|]. rewrite !fmap_cons, IH. reflexivity. Qed.

(** ** The store of a loaded file *)

Lemma dict_get_imap_index (fb : dict (list string)) (o : nat) (k : string) :
  dict_get k (imap (fun n kv => (kv.1, o + n)) fb) =
  (fun n => o + n) <$> (fst <$> list_find (fun kv => kv.1 = k) fb).
Proof.
  revert o. induction fb as [|[k' bs] fb IH]; intros o; simpl; [reflexivity|].
  destruct (decide (k = k')) as [->|Hk].
  - rewrite decide_True by reflexivity. reflexivity.
  - rewrite decide_False by (simpl; congruence).
    rewrite (imap_ext _ (fun n kv => (kv.1, S o + n))) by (intros; simpl; f_equal; lia).
    rewrite IH. destruct (list_find _ fb) as [[n kv]|]; simpl; [f_equal; lia|reflexivity].
Qed.

(** The reference the loaded metadata holds for [k] is the position of the
    entry of [k] in the file. *)
Lemma object_of_spec (f : SubtileFile) (k : string) (bs : list string) :
  dict_get k (file_bands f) = Some bs ->
  dict_get k (satellites (tile_metadata (Subtile_of_file f).1)) = Some (object_of f k) /\
  file_bands f !! object_of f k = Some (k, bs).
Proof.
  intros Hget. unfold object_of. simpl.
  pose proof (dict_get_imap_index (file_bands f) 0 k) as Hidx. simpl in Hidx.
  rewrite Hidx. clear Hidx.
  destruct (list_find (fun kv => kv.1 = k) (file_bands f)) as [[n [k' bs']]|] eqn:Hfind.
  - simpl. split; [reflexivity|].
    apply list_find_Some in Hfind as (Hn & Hk & Hfirst). simpl in Hk. subst k'.
    rewrite Hn. f_equal. f_equal.
    revert n Hn Hfirst Hget. generalize (file_bands f) as fb.
    induction fb as [|[k0 b0] fb IH]; intros n Hn Hfirst Hget; [discriminate|].
    simpl in Hget. destruct (decide (k = k0)) as [->|Hne].
    + destruct n as [|n]; [simpl in Hn; congruence|].
      exfalso. apply (Hfirst 0 (k0, b0)); [reflexivity|lia|reflexivity].
    + destruct n as [|n]; [simpl in Hn; congruence|].
      apply (IH n); [exact Hn| |exact Hget].
      intros j y Hj Hlt. apply (Hfirst (S j) y); [exact Hj|lia].
  - exfalso. apply list_find_None in Hfind.
    apply dict_get_elem_of in Hget.
    rewrite Forall_forall in Hfind. apply (Hfind _ Hget). reflexivity.
Qed.

Lemma object_of_store (f : SubtileFile) (k : string) (bs : list string) :
  dict_get k (file_bands f) = Some bs ->
  (Subtile_of_file f).2 !! object_of f k = Some (mk_satellite bs).
Proof.
  intros Hget. destruct (object_of_spec f k bs Hget) as [_ Hl].
  simpl. rewrite list_lookup_fmap, Hl. reflexivity.
Qed.

Lemma object_of_inj (f : SubtileFile) (k1 k2 : string) :
  is_Some (dict_get k1 (file_bands f)) -> is_Some (dict_get k2 (file_bands f)) ->
  object_of f k1 = object_of f k2 -> k1 = k2.
Proof.
  intros [b1 H1] [b2 H2] Heq.
  destruct (object_of_spec f k1 b1 H1) as [_ L1].
  destruct (object_of_spec f k2 b2 H2) as [_ L2].
  rewrite Heq in L1. congruence.
Qed.

Lemma get_bands_valid (s : store) (l : loc) :
  l < length s -> exists b, get_bands s l = OK b.
Proof.
  intros Hl. apply lookup_lt_is_Some_2 in Hl as [x Hx].
  exists (bands x). unfold get_bands. rewrite Hx. reflexivity.
Qed.

(** [deepcopy] of metadata whose references are all in the store succeeds,
    and only adds objects to the store. *)
Lemma deepcopy_satellites_ok (d : dict loc) :
  forall memo (s : store),
    Forall (fun kl => kl.2 < length s) d ->
    exists d' ext, deepcopy_satellites d memo s = OK (d', s ++ ext).
Proof.
  induction d as [|[k l] d IH]; intros memo s Hd; simpl.
  - exists [], []. rewrite app_nil_r. reflexivity.
  - apply Forall_cons in Hd as [Hl Hd]. simpl in Hl.
    destruct (list_find (fun p => p.1 = l) memo) as [[? [? l']]|].
    + destruct (IH memo s Hd) as (d' & ext & ->). simpl. eauto.
    + destruct (get_bands_valid s l Hl) as [b ->]. simpl.
      destruct (IH ((l, length s) :: memo) (s ++ [mk_satellite b])) as (d' & ext & ->).
      * eapply Forall_impl; [exact Hd|]. intros kl. rewrite length_app. simpl. lia.
      * simpl. exists ((k, length s) :: d'), ([mk_satellite b] ++ ext).
        rewrite app_assoc. reflexivity.
Qed.

Lemma loaded_refs_valid (f : SubtileFile) :
  Forall (fun kl => kl.2 < length (Subtile_of_file f).2)
    (satellites (tile_metadata (Subtile_of_file f).1)).
Proof.
  simpl. rewrite length_fmap. apply Forall_forall. intros [k l] Hin.
  apply elem_of_lookup_imap in Hin as (i & kv & Heq & Hi). simpl.
  injection Heq as _ ->. apply lookup_lt_Some in Hi. exact Hi.
Qed.

Lemma deepcopy_loaded (f : SubtileFile) :
  exists m' ext,
    deepcopy (tile_metadata (Subtile_of_file f).1) (Subtile_of_file f).2
    = OK (m', (Subtile_of_file f).2 ++ ext).
Proof.
  unfold deepcopy.
  destruct (deepcopy_satellites_ok _ [] _ (loaded_refs_valid f)) as (d' & ext & ->).
  simpl. eauto.
Qed.

(** ** Band positions *)

Lemma elem_of_select_indices (bs req : list string) (i : nat) :
  i ∈ select_indices bs req <-> exists v, bs !! i = Some v /\ v ∈ req.
Proof.
  unfold select_indices. rewrite list_elem_of_fmap. split.
  - intros ([i' v] & -> & Hin). apply list_elem_of_filter in Hin as [Hv Hin].
    apply elem_of_lookup_imap in Hin as (j & x & Heq & Hj).
    injection Heq as -> ->. simpl. eauto.
  - intros (v & Hi & Hv). exists (i, v). split; [reflexivity|].
    apply list_elem_of_filter. split; [exact Hv|].
    apply elem_of_lookup_imap. eauto.
Qed.

Lemma select_indices_lt (bs req : list string) :
  Forall (fun i => i < length bs) (select_indices bs req).
Proof.
  apply Forall_forall. intros i Hi.
  apply elem_of_select_indices in Hi as (v & Hv & _).
  apply lookup_lt_Some in Hv. exact Hv.
Qed.

Lemma select_indices_names_go (bs req pre : list string) :
  (fun i => (pre ++ bs) !! i) <$>
    (filter (fun iv => iv.2 ∈ req)
       (imap (fun index value => (length pre + index, value)) bs)).*1
  = Some <$> filter (fun v => v ∈ req) bs.
Proof.
  revert pre. induction bs as [|b bs IH]; intros pre; [reflexivity|].
  rewrite imap_cons, !filter_cons.
  rewrite (imap_ext _ (fun index value => (length (pre ++ [b]) + index, value)))
    by (intros; simpl; rewrite length_app; simpl; f_equal; lia).
  specialize (IH (pre ++ [b])). rewrite <- app_assoc in IH.
  change ([b] ++ bs) with (b :: bs) in IH.
  cbn [snd]. destruct (decide (b ∈ req)); rewrite ?fmap_cons, IH; [|reflexivity].
  f_equal. cbn [fst]. rewrite Nat.add_0_r. apply list_lookup_middle. reflexivity.
Qed.

(** The bands at the selected positions are the bands of the source that
    occur in the request, in the order of the source. *)
Lemma select_indices_names (bs req : list string) :
  (fun i => bs !! i) <$> select_indices bs req = Some <$> filter (fun v => v ∈ req) bs.
Proof. apply (select_indices_names_go bs req []). Qed.

Lemma length_select_indices (bs req : list string) :
  length (select_indices bs req) = length (filter (fun v => v ∈ req) bs).
Proof.
  rewrite <- (length_fmap (fun i => bs !! i)), select_indices_names, length_fmap.
  reflexivity.
Qed.

Lemma filter_ext_in {A} (P Q : A -> Prop) `{!forall x, Decision (P x)}
    `{!forall x, Decision (Q x)} (l : list A) :
  (forall x, x ∈ l -> P x <-> Q x) -> filter P l = filter Q l.
Proof.
  induction l as [|a l IH]; intros Hpq; [reflexivity|].
  rewrite !filter_cons.
  pose proof (Hpq a (list_elem_of_here _ _)) as Ha.
  rewrite IH by (intros x Hx; apply Hpq, list_elem_of_further, Hx).
  destruct (decide (P a)), (decide (Q a)); tauto || reflexivity.
Qed.


Lemma take_bands_ok (a : ndarray) (t b h w : nat) (rest : list nat) (indices : list nat) :
  shape a = t :: b :: h :: w :: rest ->
  Forall (fun i => i < b) indices ->
  exists out,
    take_bands a indices = OK out /\
    shape out = t :: length indices :: h :: w :: rest.
Proof.
  intros Hs Hi. unfold take_bands. rewrite Hs.
  rewrite decide_True by exact Hi. eexists. split; reflexivity.
Qed.

(** ** Slicing along the band axis *)


Lemma slice_length {A} (off len : nat) (l : list A) :
  off + len <= length l -> length (slice off len l) = len.
Proof. intros H. unfold slice. rewrite length_take, length_drop. lia. Qed.

Lemma flat_map_length_blocks {A B} (f : A -> list B) (m : nat) (l : list A) :
  (forall y, y ∈ l -> length (f y) = m) -> length (flat_map f l) = length l * m.
Proof.
  induction l as [|a l IH]; intros Hm; [reflexivity|].
  simpl. rewrite length_app, IH, Hm.
  - reflexivity.
  - apply list_elem_of_here.
  - intros y Hy. apply Hm, list_elem_of_further, Hy.
Qed.



(** ** Band selection *)

Lemma dict_get_key {V} (d : dict V) (k : string) :
  k ∈ dict_keys d -> exists v, dict_get k d = Some v.
Proof.
  intros Hk. destruct (dict_get k d) as [v|] eqn:Hg; [eauto|].
  apply dict_get_None in Hg. contradiction.
Qed.

(** What [selection_ok] says of one key of the selection. *)
Lemma selection_ok_key (h w : nat) (sel : dict (list string)) (f : SubtileFile) (k : string) :
  selection_ok h w sel f = true -> k ∈ dict_keys sel ->
  exists bs a t b h' w' rest,
    dict_get k (file_bands f) = Some bs /\
    dict_get k (file_stack f) = Some a /\
    shape a = t :: b :: h' :: w' :: rest /\
    length bs <= b /\
    (k = "gt" \/ has_hw h w a = true).
Proof.
  unfold selection_ok. intros Hok Hk.
  apply andb_true_iff in Hok as [_ Hall].
  rewrite forallb_forall in Hall.
  apply list_elem_of_fmap in Hk as ([k' v] & -> & Hin). simpl.
  apply list_elem_of_In in Hin. specialize (Hall _ Hin). simpl in Hall.
  destruct (dict_get k' (file_bands f)) as [bs|]; [|discriminate].
  destruct (dict_get k' (file_stack f)) as [a|]; [|discriminate].
  destruct (shape a) as [|t [|b [|h' [|w' rest]]]] eqn:Hs; try discriminate.
  apply andb_true_iff in Hall as [Hlen Hhw].
  apply bool_decide_eq_true in Hlen.
  exists bs, a, t, b, h', w', rest. repeat split; auto.
  apply orb_true_iff in Hhw as [Hgt|Hhw]; [left; apply bool_decide_eq_true in Hgt; exact Hgt|right; exact Hhw].
Qed.

Lemma selection_ok_NoDup (h w : nat) (sel : dict (list string)) (f : SubtileFile) :
  selection_ok h w sel f = true -> NoDup (dict_keys sel).
Proof.
  unfold selection_ok. intros Hok. apply andb_true_iff in Hok as [Hnd _].
  apply bool_decide_eq_true in Hnd. exact Hnd.
Qed.

(** The slice of a source of a fitting selection is well defined. *)
Lemma sliced_source_ok (h w : nat) (sel : dict (list string)) (f : SubtileFile) (k : string) :
  selection_ok h w sel f = true -> k ∈ dict_keys sel ->
  exists t b h' w' rest,
    shape (array_in_file f k) = t :: b :: h' :: w' :: rest /\
    take_bands (array_in_file f k) (select_indices (bands_in_file f k) (requested sel k))
    = OK (sliced_source sel f k) /\
    shape (sliced_source sel f k)
    = t :: length (select_indices (bands_in_file f k) (requested sel k)) :: h' :: w' :: rest.
Proof.
  intros Hok Hk.
  destruct (selection_ok_key _ _ _ _ _ Hok Hk)
    as (bs & a & t & b & h' & w' & rest & Hb & Ha & Hs & Hlen & _).
  unfold sliced_source, array_in_file, bands_in_file. rewrite Hb, Ha. simpl.
  destruct (take_bands_ok a t b h' w' rest (select_indices bs (requested sel k)) Hs)
    as (out & Hout & Hso).
  - eapply Forall_impl; [apply select_indices_lt|]. simpl. intros; lia.
  - exists t, b, h', w', rest. rewrite Hout. auto.
Qed.

(** The loop of [__select_bands], when every key resolves and distinct keys
    resolve to distinct metadata objects: the result in closed form. *)
Lemma select_bands_loop_ok (sel : dict (list string)) (sub : Subtile)
    (lf : string -> nat) (bf reqf : string -> list string)
    (af slf : string -> ndarray) (ks : list string) :
  NoDup ks ->
  (forall k, k ∈ ks ->
     dict_get k (satellites (tile_metadata sub)) = Some (lf k) /\
     dict_get k sel = Some (reqf k) /\
     dict_get k (satellite_stack sub) = Some (af k) /\
     take_bands (af k) (select_indices (bf k) (reqf k)) = OK (slf k)) ->
  (forall k1 k2, k1 ∈ ks -> k2 ∈ ks -> lf k1 = lf k2 -> k1 = k2) ->
  forall st nm (s : list SatelliteMetadata),
    (forall k, k ∈ ks -> s !! lf k = Some (mk_satellite (bf k))) ->
    select_bands_loop sel sub ks (st, nm, s)
    = OK (foldl (fun d k => dict_set k (slf k) d) st ks,
          mk_metadata (foldl (fun d k => dict_set k (lf k) d) (satellites nm) ks),
          foldl (fun s k => <[lf k := mk_satellite (reqf k)]> s) s ks).
Proof.
  induction ks as [|k ks IH]; intros Hnd Hres Hinj st nm s Hs.
  - simpl. destruct nm. reflexivity.
  - apply NoDup_cons in Hnd as [Hk Hnd].
    destruct (Hres k (list_elem_of_here _ _)) as (H1 & H2 & H3 & H4).
    pose proof (Hs k (list_elem_of_here _ _)) as Hsk.
    cbn [select_bands_loop select_bands_step].
    unfold dict_getitem, get_bands, set_bands.
    rewrite H1. cbn [or_raise mbind result_bind]. rewrite Hsk.
    cbn [fmap option_fmap option_map or_raise mbind result_bind bands].
    rewrite H2. cbn [or_raise mbind result_bind].
    rewrite H3. cbn [or_raise mbind result_bind]. rewrite H4.
    cbn [mbind result_bind].
    rewrite IH; [reflexivity|exact Hnd| | |].
    + intros k' Hk'. apply Hres, list_elem_of_further, Hk'.
    + intros k1 k2 Hk1 Hk2. apply Hinj; apply list_elem_of_further; assumption.
    + intros k' Hk'. rewrite list_lookup_insert_ne.
      * apply Hs, list_elem_of_further, Hk'.
      * intros Heq. apply Hk.
        rewrite (Hinj k k' (list_elem_of_here _ _) (list_elem_of_further _ _ _ Hk') Heq).
        exact Hk'.
Qed.

(** The store after the loop: the objects of the keys hold the requests,
    every other object is untouched. *)
Lemma foldl_insert_other (lf : string -> nat) (reqf : string -> list string)
    (ks : list string) (s : list SatelliteMetadata) (l : nat) :
  l ∉ lf <$> ks ->
  foldl (fun s k => <[lf k := mk_satellite (reqf k)]> s) s ks !! l = s !! l.
Proof.
  revert s. induction ks as [|k ks IH]; intros s Hl; [reflexivity|].
  rewrite fmap_cons, not_elem_of_cons in Hl. destruct Hl as [Hne Hl].
  simpl. rewrite IH by exact Hl. apply list_lookup_insert_ne. congruence.
Qed.

Lemma foldl_insert_lookup (lf : string -> nat) (reqf : string -> list string)
    (ks : list string) (s : list SatelliteMetadata) (k : string) :
  NoDup ks ->
  (forall k1 k2, k1 ∈ ks -> k2 ∈ ks -> lf k1 = lf k2 -> k1 = k2) ->
  k ∈ ks -> lf k < length s ->
  foldl (fun s k => <[lf k := mk_satellite (reqf k)]> s) s ks !! lf k
  = Some (mk_satellite (reqf k)).
Proof.
  revert s. induction ks as [|k' ks IH]; intros s Hnd Hinj Hk Hlen;
    [by apply elem_of_nil in Hk|].
  apply NoDup_cons in Hnd as [Hk' Hnd]. simpl.
  destruct (decide (k ∈ ks)) as [Hin|Hnin].
  - apply IH; auto.
    + intros k1 k2 H1 H2. apply Hinj; apply list_elem_of_further; assumption.
    + rewrite length_insert. exact Hlen.
  - apply elem_of_cons in Hk as [->|Hk]; [|contradiction].
    rewrite foldl_insert_other.
    + apply list_lookup_insert_eq. exact Hlen.
    + intros Hin. apply list_elem_of_fmap in Hin as (k2 & Heq & Hk2).
      apply Hk'. rewrite (Hinj k' k2); auto.
      * apply list_elem_of_here.
      * apply list_elem_of_further, Hk2.
Qed.

Lemma requested_key (sel : dict (list string)) (k : string) :
  k ∈ dict_keys sel -> dict_get k sel = Some (requested sel k).
Proof.
  intros Hk. destruct (dict_get_key sel k Hk) as [v Hv].
  unfold requested. rewrite Hv. reflexivity.
Qed.

(** [__select_bands] on a freshly loaded file and a fitting selection, in
    closed form: the selected stack holds, per key of the selection, the
    slice of the source; the new metadata refers to the metadata objects of
    the loaded bundle; those objects now hold the requests. *)
Lemma select_bands_loaded (h w : nat) (ds : DSE) (sel : dict (list string)) (f : SubtileFile) :
  selected_bands ds = Some sel ->
  selection_ok h w sel f = true ->
  exists ext,
    select_bands ds (Subtile_of_file f).1 (Subtile_of_file f).2
    = OK ((fun k => (k, sliced_source sel f k)) <$> dict_keys sel,
          mk_metadata ((fun k => (k, object_of f k)) <$> dict_keys sel),
          store_after_selection sel f ((Subtile_of_file f).2 ++ ext)).
Proof.
  intros Hsel Hok. unfold select_bands.
  destruct (deepcopy_loaded f) as (m' & ext & ->).
  cbn [mbind result_bind]. rewrite Hsel. exists ext.
  pose proof (selection_ok_NoDup _ _ _ _ Hok) as Hnd.
  rewrite (select_bands_loop_ok sel (Subtile_of_file f).1 (object_of f)
             (bands_in_file f) (requested sel) (array_in_file f) (sliced_source sel f)).
  - cbn [satellites]. rewrite !foldl_dict_set by (auto; intros; apply not_elem_of_nil).
    reflexivity.
  - exact Hnd.
  - intros k Hk.
    destruct (selection_ok_key _ _ _ _ _ Hok Hk)
      as (bs & a & t & b & h' & w' & rest & Hb & Ha & Hs & Hlen & _).
    destruct (sliced_source_ok _ _ _ _ _ Hok Hk) as (? & ? & ? & ? & ? & _ & Htb & _).
    repeat split.
    + apply (object_of_spec f k bs Hb).
    + apply requested_key, Hk.
    + simpl. unfold array_in_file. rewrite Ha. reflexivity.
    + exact Htb.
  - intros k1 k2 Hk1 Hk2.
    destruct (selection_ok_key _ _ _ _ _ Hok Hk1) as (b1 & ? & ? & ? & ? & ? & ? & Hb1 & _).
    destruct (selection_ok_key _ _ _ _ _ Hok Hk2) as (b2 & ? & ? & ? & ? & ? & ? & Hb2 & _).
    apply object_of_inj; eauto.
  - intros k Hk.
    destruct (selection_ok_key _ _ _ _ _ Hok Hk) as (bs & ? & ? & ? & ? & ? & ? & Hb & _).
    pose proof (object_of_store f k bs Hb) as Hst.
    rewrite lookup_app_l by (apply lookup_lt_Some in Hst; exact Hst).
    rewrite Hst. unfold bands_in_file. rewrite Hb. reflexivity.
Qed.

(** [__select_bands] without a selection: the stack of the bundle passes
    through. *)
Lemma select_bands_none (ds : DSE) (f : SubtileFile) :
  selected_bands ds = None ->
  exists m' ext,
    select_bands ds (Subtile_of_file f).1 (Subtile_of_file f).2
    = OK (file_stack f, m', (Subtile_of_file f).2 ++ ext).
Proof.
  intros Hsel. unfold select_bands.
  destruct (deepcopy_loaded f) as (m' & ext & ->).
  cbn [mbind result_bind]. rewrite Hsel. eauto.
Qed.

(** The selected stack of a fitting selection can be stacked. *)
Lemma selected_stack_stackable (h w : nat) (sel : dict (list string)) (f : SubtileFile) :
  selection_ok h w sel f = true ->
  stackable h w ((fun k => (k, sliced_source sel f k)) <$> dict_keys sel) = true.
Proof.
  intros Hok. unfold stackable. apply forallb_forall. intros [k a] Hin.
  apply list_elem_of_In, list_elem_of_fmap in Hin as (k' & Heq & Hk).
  injection Heq as -> ->. simpl.
  destruct (selection_ok_key _ _ _ _ _ Hok Hk)
    as (bs & a & t & b & h' & w' & rest & Hb & Ha & Hs & Hlen & Hhw).
  destruct Hhw as [->|Hhw]; [reflexivity|].
  apply orb_true_iff. right.
  destruct (sliced_source_ok _ _ _ _ _ Hok Hk) as (t2 & b2 & h2 & w2 & r2 & Hs2 & _ & Hshape).
  unfold array_in_file in Hs2. rewrite Ha in Hs2. simpl in Hs2.
  destruct (has_hw_shape _ _ _ Hhw) as (t3 & b3 & Hs3).
  rewrite Hs3 in Hs2. injection Hs2 as <- <- <- <- <-.
  unfold has_hw. rewrite Hshape. rewrite !bool_decide_eq_true_2 by reflexivity. reflexivity.
Qed.

(** ** The positional accessor *)

Section Accessor.

Variable load : Path -> result SubtileFile.

(** [__getitem__] in terms of its stages. *)
Lemma getitem_stages (ds : DSE) (idx : Z) (p : Path) (f : SubtileFile) :
  (0 <= idx)%Z -> tiles ds !! Z.to_nat idx = Some p -> load p = OK f ->
  getitem load ds idx =
  ('(selected_stack, metadata, s) ← select_bands ds (Subtile_of_file f).1 (Subtile_of_file f).2;
   y ← dict_getitem "gt" (file_stack f);
   X ← stack_loop selected_stack XList;
   y ← np_squeeze0 y;
   '(X, y) ← match transform ds with
             | Some tr => tr X y
             | None => OK (X, y)
             end;
   OK ((X, sub_scalar y 1, metadata), s)).
Proof.
  intros Hidx Hp Hload. unfold getitem, py_index, Subtile_load.
  rewrite decide_True by exact Hidx. rewrite Hp.
  cbn [or_raise mbind result_bind]. rewrite Hload. reflexivity.
Qed.

(** A well-formed bundle is assembled into a sample: the accessor returns,
    the input is the stacking of the selected sources and the label is the
    ground truth without its first axis, every value decremented in the
    element type of the ground truth. *)
Lemma getitem_ok (h w : nat) (ds : DSE) (idx : Z) (p : Path) (f : SubtileFile)
    (g : ndarray) (rest : list nat) :
  (0 <= idx)%Z -> tiles ds !! Z.to_nat idx = Some p -> load p = OK f ->
  transform ds = None ->
  bundle_ok h w (selected_bands ds) f = true ->
  dict_get "gt" (file_stack f) = Some g ->
  shape g = 1 :: rest ->
  exists stack' meta' s' X,
    select_bands ds (Subtile_of_file f).1 (Subtile_of_file f).2 = OK (stack', meta', s') /\
    stack_loop stack' XList = OK X /\
    py_len X = OK (sum_list (time_band <$> non_gt stack')) /\
    getitem load ds idx = OK ((X, sub_scalar (mk_ndarray rest (data g) (dtype g)) 1, meta'), s').
Proof.
  intros Hidx Hp Hload Htr Hok Hg Hs.
  rewrite (getitem_stages ds idx p f Hidx Hp Hload).
  assert (exists stack' meta' s',
            select_bands ds (Subtile_of_file f).1 (Subtile_of_file f).2
            = OK (stack', meta', s') /\ stackable h w stack' = true)
    as (stack' & meta' & s' & Hsb & Hst).
  { destruct (selected_bands ds) as [sel|] eqn:Hsel; simpl in Hok.
    - destruct (select_bands_loaded h w ds sel f Hsel Hok) as (ext & Heq).
      eexists _, _, _. split; [exact Heq|]. apply selected_stack_stackable, Hok.
    - destruct (select_bands_none ds f Hsel) as (m' & ext & Heq).
      eexists _, _, _. split; [exact Heq|exact Hok]. }
  destruct (stack_loop_ok h w stack' Hst XList 0 I eq_refl) as (X & HX & _ & Hlen).
  exists stack', meta', s', X. rewrite Hsb. repeat split; auto.
  cbn [mbind result_bind]. unfold dict_getitem. rewrite Hg.
  cbn [or_raise mbind result_bind]. rewrite HX. cbn [mbind result_bind].
  unfold np_squeeze0. rewrite Hs, Htr. reflexivity.
Qed.

End Accessor.

(** ** The label *)

(** C1, as the code has it.  For a valid index, no transform, and a
    well-formed bundle whose ground truth has shape (1, band, height, width),
    the accessor returns a label of shape (band, height, width): the time
    axis is removed and the band axis is kept. *)
Theorem getitem_label_shape (load : Path -> result SubtileFile) (h w : nat) (ds : DSE)
    (idx : Z) (p : Path) (f : SubtileFile) (g : ndarray) (gb gh gw : nat) :
  (0 <= idx)%Z -> tiles ds !! Z.to_nat idx = Some p -> load p = OK f ->
  transform ds = None ->
  bundle_ok h w (selected_bands ds) f = true ->
  dict_get "gt" (file_stack f) = Some g ->
  shape g = [1; gb; gh; gw] ->
  exists X y m s,
    getitem load ds idx = OK ((X, y, m), s) /\ shape y = [gb; gh; gw].
Proof.
  intros Hidx Hp Hload Htr Hok Hg Hs.
  destruct (getitem_ok load h w ds idx p f g _ Hidx Hp Hload Htr Hok Hg Hs)
    as (stack' & meta' & s' & X & _ & _ & _ & Hget).
  eexists _, _, _, _. split; [exact Hget|reflexivity].
Qed.

(** Arithmetic in an element type: a value of the type is stored as it
    is, the value below the minimum is stored as the maximum, and adding
    back what was subtracted undoes the subtraction. *)
Lemma dtype_span (t : np_dtype) :
  (dtype_max t - dtype_min t = 2 ^ dtype_bits t - 1)%Z.
Proof. destruct t; reflexivity. Qed.

Lemma wrap_holds (t : np_dtype) (v : Z) : holds t v -> wrap t v = v.
Proof.
  unfold holds, wrap. intros Hv. pose proof (dtype_span t) as Hspan.
  rewrite Z.mod_small; lia.
Qed.

Lemma wrap_below_min (t : np_dtype) : wrap t (dtype_min t - 1) = dtype_max t.
Proof. destruct t; reflexivity. Qed.

Lemma wrap_sub_add (t : np_dtype) (v k : Z) : wrap t (wrap t (v - k) + k) = wrap t v.
Proof.
  unfold wrap. f_equal.
  replace ((v - k - dtype_min t) mod 2 ^ dtype_bits t + dtype_min t + k - dtype_min t)%Z
    with ((v - k - dtype_min t) mod 2 ^ dtype_bits t + k)%Z by lia.
  rewrite Zplus_mod_idemp_l. f_equal. lia.
Qed.

(** C6, as the code has it.  For a valid index, no transform, and a
    well-formed bundle whose ground truth holds values of its integer element
    type, the returned label has the element type of the ground truth and
    every value of it is the ground-truth value at the same position minus 1
    computed in that type: the integer one less wherever the ground-truth
    value is above the minimum of the type, and the maximum of the type
    where it is the minimum.  Adding 1 to the label, in the same type, gives
    the ground-truth values back. *)
Theorem getitem_label_shift (load : Path -> result SubtileFile) (h w : nat) (ds : DSE)
    (idx : Z) (p : Path) (f : SubtileFile) (g : ndarray) (rest : list nat) :
  (0 <= idx)%Z -> tiles ds !! Z.to_nat idx = Some p -> load p = OK f ->
  transform ds = None ->
  bundle_ok h w (selected_bands ds) f = true ->
  dict_get "gt" (file_stack f) = Some g ->
  shape g = 1 :: rest ->
  in_range g ->
  exists X y m s,
    getitem load ds idx = OK ((X, y, m), s) /\
    dtype y = dtype g /\
    length (data y) = length (data g) /\
    (forall i v, data g !! i = Some v -> data y !! i = Some (wrap (dtype g) (v - 1))) /\
    (forall i v, data g !! i = Some v -> (dtype_min (dtype g) < v)%Z ->
                 data y !! i = Some (v - 1)%Z) /\
    (forall i, data g !! i = Some (dtype_min (dtype g)) ->
               data y !! i = Some (dtype_max (dtype g))) /\
    data (add_scalar y 1) = data g.
Proof.
  intros Hidx Hp Hload Htr Hok Hg Hs Hrange.
  destruct (getitem_ok load h w ds idx p f g _ Hidx Hp Hload Htr Hok Hg Hs)
    as (stack' & meta' & s' & X & _ & _ & _ & Hget).
  eexists _, _, _, _. split; [exact Hget|]. simpl.
  assert (forall i v, data g !! i = Some v -> holds (dtype g) v) as Hin.
  { intros i v Hv. exact (proj1 (Forall_lookup _ _) Hrange i v Hv). }
  repeat split.
  - apply length_fmap.
  - intros i v Hv. rewrite list_lookup_fmap, Hv. reflexivity.
  - intros i v Hv Hmin. rewrite list_lookup_fmap, Hv. simpl. f_equal.
    apply wrap_holds. destruct (Hin i v Hv) as [Hlo Hhi]. split; lia.
  - intros i Hv. rewrite list_lookup_fmap, Hv. simpl. f_equal. apply wrap_below_min.
  - rewrite <- list_fmap_compose. rewrite <- (list_fmap_id (data g)) at 2.
    apply list_fmap_ext. intros i v Hv. simpl.
    rewrite wrap_sub_add. apply wrap_holds. exact (Hin i v Hv).
Qed.

(** ** The input *)

(** C5. For a valid index, no transform, and a well-formed bundle, the
    first-axis length of the returned input is the sum, over the sources
    other than the ground truth that remain after band filtering, of
    time × band of the filtered source. *)
Theorem getitem_input_length (load : Path -> result SubtileFile) (h w : nat) (ds : DSE)
    (idx : Z) (p : Path) (f : SubtileFile) (g : ndarray) (rest : list nat) :
  (0 <= idx)%Z -> tiles ds !! Z.to_nat idx = Some p -> load p = OK f ->
  transform ds = None ->
  bundle_ok h w (selected_bands ds) f = true ->
  dict_get "gt" (file_stack f) = Some g ->
  shape g = 1 :: rest ->
  exists filtered X y m s,
    select_bands ds (Subtile_of_file f).1 (Subtile_of_file f).2 = OK (filtered, m, s) /\
    getitem load ds idx = OK ((X, y, m), s) /\
    py_len X = OK (sum_list (time_band <$> non_gt filtered)).
Proof.
  intros Hidx Hp Hload Htr Hok Hg Hs.
  destruct (getitem_ok load h w ds idx p f g _ Hidx Hp Hload Htr Hok Hg Hs)
    as (stack' & meta' & s' & X & Hsb & _ & Hlen & Hget).
  eexists _, _, _, _, _. split; [exact Hsb|]. split; [exact Hget|exact Hlen].
Qed.

(** ** The metadata *)

Lemma bands_of_loaded (f : SubtileFile) (k : string) (bs : list string) :
  dict_get k (file_bands f) = Some bs ->
  bands_of (Subtile_of_file f).2 (tile_metadata (Subtile_of_file f).1) k = Some bs.
Proof.
  intros Hb. unfold bands_of.
  destruct (object_of_spec f k bs Hb) as [-> _]. cbn [mbind option_bind].
  rewrite (object_of_store f k bs Hb). reflexivity.
Qed.

Lemma store_after_selection_key (h w : nat) (sel : dict (list string)) (f : SubtileFile)
    (ext : list SatelliteMetadata) (k : string) :
  selection_ok h w sel f = true -> k ∈ dict_keys sel ->
  store_after_selection sel f ((Subtile_of_file f).2 ++ ext) !! object_of f k
  = Some (mk_satellite (requested sel k)).
Proof.
  intros Hok Hk. unfold store_after_selection.
  apply foldl_insert_lookup; [exact (selection_ok_NoDup _ _ _ _ Hok)| |exact Hk|].
  - intros k1 k2 Hk1 Hk2.
    destruct (selection_ok_key _ _ _ _ _ Hok Hk1) as (b1 & ? & ? & ? & ? & ? & ? & Hb1 & _).
    destruct (selection_ok_key _ _ _ _ _ Hok Hk2) as (b2 & ? & ? & ? & ? & ? & ? & Hb2 & _).
    apply object_of_inj; eauto.
  - destruct (selection_ok_key _ _ _ _ _ Hok Hk) as (bs & ? & ? & ? & ? & ? & ? & Hb & _).
    pose proof (object_of_store f k bs Hb) as Hst. apply lookup_lt_Some in Hst.
    rewrite length_app. lia.
Qed.


(** ...and so does the metadata of the loaded bundle, whose objects the
    returned metadata shares. *)
Lemma loaded_metadata_bands_after (h w : nat) (sel : dict (list string)) (f : SubtileFile)
    (ext : list SatelliteMetadata) (k : string) :
  selection_ok h w sel f = true -> k ∈ dict_keys sel ->
  bands_of (store_after_selection sel f ((Subtile_of_file f).2 ++ ext))
    (tile_metadata (Subtile_of_file f).1) k
  = Some (requested sel k).
Proof.
  intros Hok Hk. unfold bands_of.
  destruct (selection_ok_key _ _ _ _ _ Hok Hk) as (bs & ? & ? & ? & ? & ? & ? & Hb & _).
  destruct (object_of_spec f k bs Hb) as [-> _]. cbn [mbind option_bind].
  rewrite (store_after_selection_key h w sel f ext k Hok Hk). reflexivity.
Qed.

(** A selection overwrites the band list that the metadata of the loaded
    bundle shows, because the returned metadata holds the very object of
    the loaded bundle. *)
Lemma select_bands_writes_loaded_metadata (h w : nat) (ds : DSE) (sel : dict (list string))
    (f : SubtileFile) (S : string) (req bs : list string) :
  selected_bands ds = Some sel ->
  selection_ok h w sel f = true ->
  dict_get S sel = Some req ->
  dict_get S (file_bands f) = Some bs ->
  exists filtered m s,
    select_bands ds (Subtile_of_file f).1 (Subtile_of_file f).2 = OK (filtered, m, s) /\
    bands_of (Subtile_of_file f).2 (tile_metadata (Subtile_of_file f).1) S = Some bs /\
    bands_of s (tile_metadata (Subtile_of_file f).1) S = Some req /\
    dict_get S (satellites m) = dict_get S (satellites (tile_metadata (Subtile_of_file f).1)).
Proof.
  intros Hsel Hok Hreq Hbs.
  assert (S ∈ dict_keys sel) as HS.
  { apply dict_get_elem_of in Hreq. apply list_elem_of_fmap. exists (S, req). auto. }
  assert (requested sel S = req) as Hr by (unfold requested; rewrite Hreq; reflexivity).
  destruct (select_bands_loaded h w ds sel f Hsel Hok) as (ext & Heq).
  eexists _, _, _. split; [exact Heq|].
  split; [apply bands_of_loaded, Hbs|].
  split.
  - rewrite (loaded_metadata_bands_after h w sel f ext S Hok HS), Hr. reflexivity.
  - cbn [satellites]. rewrite (dict_get_fmap_keys _ _ _ HS).
    destruct (object_of_spec f S bs Hbs) as [-> _]. reflexivity.
Qed.


(** C4, as the code has it.  With a selection that does not list the ground
    truth as a key, the label is still built from the unfiltered ground-truth
    array, and the returned metadata has an entry exactly for every key of
    the selection: it has no entry for the ground truth. *)
Theorem getitem_gt_not_selected (load : Path -> result SubtileFile) (h w : nat) (ds : DSE)
    (sel : dict (list string)) (idx : Z) (p : Path) (f : SubtileFile)
    (g : ndarray) (rest : list nat) :
  (0 <= idx)%Z -> tiles ds !! Z.to_nat idx = Some p -> load p = OK f ->
  transform ds = None ->
  selected_bands ds = Some sel ->
  "gt" ∉ dict_keys sel ->
  selection_ok h w sel f = true ->
  dict_get "gt" (file_stack f) = Some g ->
  shape g = 1 :: rest ->
  exists X y m s,
    getitem load ds idx = OK ((X, y, m), s) /\
    y = sub_scalar (mk_ndarray rest (data g) (dtype g)) 1 /\
    dict_keys (satellites m) = dict_keys sel /\
    dict_get "gt" (satellites m) = None.
Proof.
  intros Hidx Hp Hload Htr Hsel Hgt Hok Hg Hs.
  assert (bundle_ok h w (selected_bands ds) f = true) as Hb by (rewrite Hsel; exact Hok).
  destruct (getitem_ok load h w ds idx p f g _ Hidx Hp Hload Htr Hb Hg Hs)
    as (stack' & meta' & s' & X & Hsb & _ & _ & Hget).
  destruct (select_bands_loaded h w ds sel f Hsel Hok) as (ext & Heq).
  rewrite Heq in Hsb. injection Hsb as <- <- <-.
  eexists _, _, _, _. split; [exact Hget|]. split; [reflexivity|].
  cbn [satellites]. unfold dict_keys at 1. rewrite fmap_keys_fst.
  split; [reflexivity|].
  apply dict_get_None. rewrite fmap_keys_fst. exact Hgt.
Qed.

(** ** The claims on concrete datasets *)

(** The scenario of the specification, end to end: input of shape (6,4,4),
    label of shape (1,4,4) with values in {0,1,2}. *)
Example scenario_sample :
  exists X y m s,
    getitem example_load (example_ds None ["Tile1_0_0.npz"]) 0 = OK ((XArray X, y, m), s) /\
    shape X = [6; 4; 4] /\ shape y = [1; 4; 4] /\
    Forall (fun v => (0 <= v <= 2)%Z) (data y).
Proof.
  eexists _, _, _, _. split; [vm_compute; reflexivity|].
  split; [reflexivity|]. split; [reflexivity|].
  simpl. repeat constructor; lia.
Qed.

Lemma getitem_label_shape_witness :
  exists X y m s,
    getitem example_load (example_ds None ["Tile1_0_0.npz"]) 0 = OK ((X, y, m), s) /\
    shape y = [1; 4; 4].
Proof.
  apply (getitem_label_shape example_load 4 4 (example_ds None ["Tile1_0_0.npz"]) 0
           (mk_path "data" "Tile1_0_0.npz") scenario_file scenario_gt 1 4 4);
    [lia|reflexivity|reflexivity|reflexivity|vm_compute; reflexivity
    |reflexivity|reflexivity].
Defined.

(** C1 as stated fails: a ground truth of shape (1,1,4,4) yields a label of
    shape (1,4,4), not (4,4). *)
Lemma getitem_label_shape_counterexample :
  dict_get "gt" (file_stack scenario_file) = Some scenario_gt /\
  shape scenario_gt = [1; 1; 4; 4] /\
  exists X y m s,
    getitem example_load (example_ds None ["Tile1_0_0.npz"]) 0 = OK ((X, y, m), s) /\
    shape y = [1; 4; 4] /\ shape y <> [4; 4].
Proof.
  split; [reflexivity|]. split; [reflexivity|].
  eexists _, _, _, _. split; [vm_compute; reflexivity|].
  split; [reflexivity|]. simpl. discriminate.
Qed.

Lemma getitem_label_shift_witness :
  in_range scenario_gt /\
  exists X y m s,
    getitem example_load (example_ds None ["Tile1_0_0.npz"]) 0 = OK ((X, y, m), s) /\
    dtype y = dtype scenario_gt /\
    length (data y) = length (data scenario_gt) /\
    (forall i v, data scenario_gt !! i = Some v ->
                 data y !! i = Some (wrap (dtype scenario_gt) (v - 1))) /\
    (forall i v, data scenario_gt !! i = Some v -> (dtype_min (dtype scenario_gt) < v)%Z ->
                 data y !! i = Some (v - 1)%Z) /\
    (forall i, data scenario_gt !! i = Some (dtype_min (dtype scenario_gt)) ->
               data y !! i = Some (dtype_max (dtype scenario_gt))) /\
    data (add_scalar y 1) = data scenario_gt.
Proof.
  assert (in_range scenario_gt) as Hrange.
  { unfold in_range. simpl.
    repeat (apply Forall_cons_2; [vm_compute; split; discriminate|]). apply Forall_nil_2. }
  split; [exact Hrange|].
  apply (getitem_label_shift example_load 4 4 (example_ds None ["Tile1_0_0.npz"]) 0
           (mk_path "data" "Tile1_0_0.npz") scenario_file scenario_gt [1; 4; 4]);
    [lia|reflexivity|reflexivity|reflexivity|vm_compute; reflexivity
    |reflexivity|reflexivity|exact Hrange].
Defined.

(** C6 as stated fails: where a ground truth of element type uint8 holds 0,
    the label holds 255, which is not 0 minus 1; the other value is one
    less. *)
Lemma getitem_label_shift_counterexample :
  dict_get "gt" (file_stack zero_gt_file) = Some (mk_ndarray [1; 1; 1; 2] [0; 2]%Z uint8) /\
  exists X y m s,
    getitem edge_load (edge_ds None ["Tile6_0_0.npz"]) 0 = OK ((X, y, m), s) /\
    dtype y = uint8 /\
    data y = [255; 1]%Z /\
    data y !! 0 <> Some (0 - 1)%Z.
Proof.
  split; [reflexivity|].
  eexists _, _, _, _. split; [vm_compute; reflexivity|].
  split; [reflexivity|]. split; [reflexivity|]. simpl. discriminate.
Qed.

Lemma getitem_input_length_witness :
  exists filtered X y m s,
    select_bands (example_ds (Some [("sentinel1", ["VH"]); ("viirs", ["0"])]) ["Tile2_0_0.npz"])
      (Subtile_of_file small_file).1 (Subtile_of_file small_file).2 = OK (filtered, m, s) /\
    getitem example_load
      (example_ds (Some [("sentinel1", ["VH"]); ("viirs", ["0"])]) ["Tile2_0_0.npz"]) 0
    = OK ((X, y, m), s) /\
    py_len X = OK (sum_list (time_band <$> non_gt filtered)).
Proof.
  apply (getitem_input_length example_load 1 1
           (example_ds (Some [("sentinel1", ["VH"]); ("viirs", ["0"])]) ["Tile2_0_0.npz"]) 0
           (mk_path "data" "Tile2_0_0.npz") small_file (mk_ndarray [1; 1; 1; 1] [4%Z] uint8) [1; 1; 1]);
    [lia|reflexivity|reflexivity|reflexivity|vm_compute; reflexivity
    |reflexivity|reflexivity].
Defined.

(** There, the input has 2·1 + 1·1 = 3 entries along its first axis. *)
Example input_length_small :
  exists X y m s,
    getitem example_load
      (example_ds (Some [("sentinel1", ["VH"]); ("viirs", ["0"])]) ["Tile2_0_0.npz"]) 0
    = OK ((X, y, m), s) /\ py_len X = OK 3.
Proof. eexists _, _, _, _. split; vm_compute; reflexivity. Qed.



Lemma getitem_gt_not_selected_witness :
  exists X y m s,
    getitem example_load (example_ds (Some [("sentinel1", ["VV"])]) ["Tile2_0_0.npz"]) 0
    = OK ((X, y, m), s) /\
    y = sub_scalar (mk_ndarray [1; 1; 1] [4%Z] uint8) 1 /\
    dict_keys (satellites m) = dict_keys [("sentinel1", ["VV"])] /\
    dict_get "gt" (satellites m) = None.
Proof.
  apply (getitem_gt_not_selected example_load 1 1
           (example_ds (Some [("sentinel1", ["VV"])]) ["Tile2_0_0.npz"])
           [("sentinel1", ["VV"])] 0 (mk_path "data" "Tile2_0_0.npz") small_file
           (mk_ndarray [1; 1; 1; 1] [4%Z] uint8) [1; 1; 1]);
    [lia|reflexivity|reflexivity|reflexivity|reflexivity
    |vm_compute; intros H; repeat (apply elem_of_cons in H as [H|H]; [discriminate|]);
     by apply elem_of_nil in H
    |vm_compute; reflexivity|reflexivity|reflexivity].
Defined.

(** C4 as stated fails: the loaded metadata has an entry for the ground
    truth, the selection does not list it, and the returned metadata has no
    such entry. *)
Lemma getitem_gt_metadata_counterexample :
  dict_get "gt" (file_bands small_file) = Some ["gt"] /\
  dict_get "gt" [("sentinel1", ["VV"])] = None /\
  exists X y m s,
    getitem example_load (example_ds (Some [("sentinel1", ["VV"])]) ["Tile2_0_0.npz"]) 0
    = OK ((X, y, m), s) /\
    bands_of s m "gt" = None /\
    dict_get "gt" (satellites m) = None.
Proof.
  split; [reflexivity|]. split; [reflexivity|].
  eexists _, _, _, _. split; [vm_compute; reflexivity|].
  split; reflexivity.
Qed.

(** C3 on a failing input: the loaded metadata shows the bands [VV, VH] of
    sentinel1 before the call with the selection [VH], and [VH] after it:
    the call writes the request into the metadata object of the loaded
    bundle, which the returned metadata shares. *)
Theorem select_bands_overwrites_loaded_metadata :
  let ds := example_ds (Some [("sentinel1", ["VH"])]) ["Tile2_0_0.npz"] in
  let sub := (Subtile_of_file small_file).1 in
  let s0 := (Subtile_of_file small_file).2 in
  bands_of s0 (tile_metadata sub) "sentinel1" = Some ["VV"; "VH"] /\
  exists filtered m s,
    select_bands ds sub s0 = OK (filtered, m, s) /\
    bands_of s (tile_metadata sub) "sentinel1" = Some ["VH"] /\
    metadata_view s (tile_metadata sub) <> metadata_view s0 (tile_metadata sub) /\
    dict_get "sentinel1" (satellites m) = dict_get "sentinel1" (satellites (tile_metadata sub)).
Proof.
  split; [reflexivity|].
  eexists _, _, _. split; [vm_compute; reflexivity|].
  split; [reflexivity|]. split; [vm_compute; discriminate|reflexivity].
Qed.

(** ** The file-name pattern *)

Lemma try_down_Some {A} (k : nat) (f : nat -> option A) (r : A) :
  try_down k f = Some r -> exists j, 1 <= j <= k /\ f j = Some r.
Proof.
  induction k as [|k IH]; simpl; [discriminate|].
  destruct (f (S k)) as [r'|] eqn:Hf.
  - intros [= ->]. exists (S k). split; [lia|exact Hf].
  - intros H. destruct (IH H) as (j & Hj & Hfj). exists j. split; [lia|exact Hfj].
Qed.

Lemma try_down_first {A} (k : nat) (f : nat -> option A) (r : A) :
  0 < k -> f k = Some r -> try_down k f = Some r.
Proof. destruct k as [|k]; [lia|]. intros _ Hf. simpl. rewrite Hf. reflexivity. Qed.

Lemma all_digits_take (j : nat) (s : string) :
  j <= digit_run s -> all_digits (str_take j s) = true.
Proof.
  revert s. induction j as [|j IH]; intros s Hj; [reflexivity|].
  destruct s as [|c s]; [reflexivity|]. simpl in *.
  destruct (is_digit c); [|lia]. simpl. apply IH. lia.
Qed.

Lemma str_take_nonempty (j : nat) (s : string) :
  1 <= j -> j <= digit_run s -> str_take j s <> "".
Proof.
  destruct j as [|j]; [lia|]. destruct s as [|c s]; simpl; [lia|]. discriminate.
Qed.

(** Whatever the items match, the groups are as many as the [(\d+)] of the
    pattern and each is a non-empty run of digits. *)
Lemma match_here_groups (p : list item) :
  forall s g, match_here p s = Some g ->
    length g = group_count p /\ Forall digit_string g.
Proof.
  unfold group_count.
  induction p as [|it p IH]; intros s g Hm.
  - injection Hm as <-. split; [reflexivity|constructor].
  - destruct it as [c| |]; simpl in Hm.
    + destruct s as [|c' s]; [discriminate|].
      destruct (decide (c = c')); [|discriminate].
      rewrite filter_cons_False by discriminate. eauto.
    + destruct s as [|c' s]; [discriminate|].
      destruct (decide (c' = newline)); [discriminate|].
      rewrite filter_cons_False by discriminate. eauto.
    + apply try_down_Some in Hm as (j & Hj & Hm).
      destruct (match_here p (str_drop j s)) as [g'|] eqn:Hg'; [|discriminate].
      injection Hm as <-. destruct (IH _ _ Hg') as [Hlen Hall].
      rewrite filter_cons_True by reflexivity. simpl. split; [f_equal; exact Hlen|].
      constructor; [|exact Hall]. split.
      * apply all_digits_take. lia.
      * apply str_take_nonempty; lia.
Qed.

Lemma re_search_Some (p : list item) (s : string) (g : list string) :
  re_search p s = Some g -> exists s', match_here p s' = Some g.
Proof.
  induction s as [|c s IH]; simpl.
  - destruct (match_here p "") eqn:Hm; [intros [= <-]; eauto|discriminate].
  - destruct (match_here p (String c s)) eqn:Hm; [intros [= <-]; eauto|exact IH].
Qed.

Lemma re_search_here (p : list item) (s : string) (g : list string) :
  match_here p s = Some g -> re_search p s = Some g.
Proof. intros Hm. destruct s; simpl; rewrite Hm; reflexivity. Qed.

Lemma py_int_digits (s : string) :
  digit_string s -> py_int s = OK (int_acc s 0).
Proof.
  intros [Hd Hne]. unfold py_int. rewrite Hd.
  destruct (String.eqb_spec s ""); [contradiction|reflexivity].
Qed.

(** A name the pattern matches has three groups, and they parse. *)
Lemma re_search_pattern (n : string) (g : list string) :
  re_search pattern n = Some g ->
  exists a b c,
    g = [a; b; c] /\ digit_string a /\ digit_string b /\ digit_string c /\
    parse_name n = Some (int_acc a 0, int_acc b 0, int_acc c 0).
Proof.
  intros Hs. destruct (re_search_Some _ _ _ Hs) as (s' & Hm).
  destruct (match_here_groups _ _ _ Hm) as [Hlen Hall].
  change (group_count pattern) with 3 in Hlen.
  destruct g as [|a [|b [|c [|? ?]]]]; try discriminate.
  apply Forall_cons in Hall as [Ha Hall].
  apply Forall_cons in Hall as [Hb Hall].
  apply Forall_cons in Hall as [Hc _].
  exists a, b, c.
  split; [reflexivity|]. split; [exact Ha|]. split; [exact Hb|]. split; [exact Hc|].
  unfold parse_name. rewrite Hs.
  rewrite (py_int_digits a Ha), (py_int_digits b Hb), (py_int_digits c Hc).
  reflexivity.
Qed.

Lemma parse_name_search (n : string) (t : Z * Z * Z) :
  parse_name n = Some t ->
  exists a b c,
    re_search pattern n = Some [a; b; c] /\
    py_int a = OK t.1.1 /\ py_int b = OK t.1.2 /\ py_int c = OK t.2.
Proof.
  unfold parse_name.
  destruct (re_search pattern n) as [[|a [|b [|c [|? ?]]]]|]; try discriminate.
  destruct (py_int a) as [za|] eqn:Ea; [|discriminate].
  destruct (py_int b) as [zb|] eqn:Eb; [|discriminate].
  destruct (py_int c) as [zc|] eqn:Ec; [|discriminate].
  intros [= <-]. exists a, b, c. auto.
Qed.

(** ** File names of triples *)

Lemma is_digit_pretty_N_char (d : N) : is_digit (pretty_N_char d) = true.
Proof. unfold pretty_N_char. repeat case_match; reflexivity. Qed.

Lemma digit_value_pretty_N_char (d : N) :
  (d < 10)%N -> digit_value (pretty_N_char d) = Z.of_N d.
Proof.
  intros Hd.
  assert (d = 0 \/ d = 1 \/ d = 2 \/ d = 3 \/ d = 4 \/ d = 5 \/ d = 6 \/ d = 7
          \/ d = 8 \/ d = 9)%N as Hcases by lia.
  repeat (destruct Hcases as [->|Hcases]; [reflexivity|]). subst. reflexivity.
Qed.

Lemma all_digits_pretty_N_go (x : N) :
  forall s, all_digits (pretty_N_go x s) = all_digits s.
Proof.
  induction (N.lt_wf_0 x) as [x _ IH]. intros s.
  destruct (decide (x = 0)%N) as [->|Hx]; [reflexivity|].
  rewrite pretty_N_go_step by lia.
  rewrite IH by (apply N.div_lt; lia).
  simpl. rewrite is_digit_pretty_N_char. reflexivity.
Qed.

Lemma int_acc_pretty_N_go (x : N) :
  forall s, int_acc (pretty_N_go x s) 0 = int_acc s (Z.of_N x).
Proof.
  induction (N.lt_wf_0 x) as [x _ IH]. intros s.
  destruct (decide (x = 0)%N) as [->|Hx]; [reflexivity|].
  rewrite pretty_N_go_step by lia.
  rewrite IH by (apply N.div_lt; lia).
  simpl. rewrite digit_value_pretty_N_char by (apply N.mod_lt; lia).
  f_equal. pose proof (N.div_mod x 10). lia.
Qed.

Lemma length_pretty_N_go (x : N) :
  forall s, String.length s <= String.length (pretty_N_go x s).
Proof.
  induction (N.lt_wf_0 x) as [x _ IH]. intros s.
  destruct (decide (x = 0)%N) as [->|Hx]; [reflexivity|].
  rewrite pretty_N_go_step by lia.
  etransitivity; [|apply IH, N.div_lt; lia]. simpl. lia.
Qed.

(** The decimal rendering of a non-negative integer is a non-empty run of
    digits, and [int] reads the integer back. *)
Lemma pretty_nonneg (t : Z) :
  (0 <= t)%Z -> digit_string (pretty t) /\ int_acc (pretty t) 0 = t.
Proof.
  intros Ht. destruct t as [|p|p]; [| |lia].
  - split; [split; [reflexivity|discriminate]|reflexivity].
  - unfold pretty, pretty_Z, pretty, pretty_positive, pretty, pretty_N.
    rewrite decide_False by discriminate.
    split; [split|].
    + rewrite all_digits_pretty_N_go. reflexivity.
    + intros Heq. pose proof (length_pretty_N_go (N.pos p) "") as Hlen.
      rewrite pretty_N_go_step in Hlen, Heq by lia.
      pose proof (length_pretty_N_go (N.pos p `div` 10)
                    (String (pretty_N_char (N.pos p `mod` 10)) "")) as Hlen2.
      rewrite Heq in Hlen2. simpl in Hlen2. lia.
    + rewrite int_acc_pretty_N_go. reflexivity.
Qed.

Lemma digit_run_app (d rest : string) :
  all_digits d = true -> digit_run rest = 0 ->
  digit_run (d +:+ rest) = String.length d.
Proof.
  intros Hd Hr. induction d as [|c d IH]; simpl in *; [exact Hr|].
  apply andb_true_iff in Hd as [Hc Hd]. rewrite Hc, IH by exact Hd. reflexivity.
Qed.

Lemma str_drop_app (d rest : string) : str_drop (String.length d) (d +:+ rest) = rest.
Proof. induction d as [|c d IH]; simpl; [destruct rest; reflexivity|exact IH]. Qed.

Lemma str_take_app (d rest : string) : str_take (String.length d) (d +:+ rest) = d.
Proof.
  induction d as [|c d IH]; simpl; [destruct rest; reflexivity|]. rewrite IH. reflexivity.
Qed.

Lemma match_lit (c : ascii) (p : list item) (s : string) :
  match_here (Lit c :: p) (String c s) = match_here p s.
Proof. simpl. rewrite decide_True by reflexivity. reflexivity. Qed.

(** A run of digits followed by something that is not a digit: the greedy
    [(\d+)] takes the whole run at its first attempt. *)
Lemma match_digits (d rest : string) (p : list item) (g : list string) :
  digit_string d -> digit_run rest = 0 ->
  match_here p rest = Some g ->
  match_here (Digits :: p) (d +:+ rest) = Some (d :: g).
Proof.
  intros [Hd Hne] Hr Hm. cbn [match_here].
  rewrite (digit_run_app d rest Hd Hr).
  apply try_down_first.
  - destruct d; [contradiction|simpl; lia].
  - rewrite str_drop_app, str_take_app, Hm. reflexivity.
Qed.

(** The pattern reads the file name of a triple of non-negative integers
    back into the triple. *)
Lemma parse_tile_name (t i j : Z) :
  (0 <= t)%Z -> (0 <= i)%Z -> (0 <= j)%Z ->
  parse_name (tile_name t i j) = Some (t, i, j).
Proof.
  intros Ht Hi Hj.
  destruct (pretty_nonneg t Ht) as [Dt Vt].
  destruct (pretty_nonneg i Hi) as [Di Vi].
  destruct (pretty_nonneg j Hj) as [Dj Vj].
  assert (match_here pattern (tile_name t i j) = Some [pretty t; pretty i; pretty j]) as Hm.
  { unfold tile_name.
    change pattern with
      (Lit "T" :: Lit "i" :: Lit "l" :: Lit "e" :: Digits :: Lit "_" :: Digits
         :: Lit "_" :: Digits :: [Dot; Lit "n"; Lit "p"; Lit "z"]).
    change ("Tile" +:+ ?x) with (String "T" (String "i" (String "l" (String "e" x)))).
    rewrite !match_lit.
    apply match_digits; [exact Dt|reflexivity|].
    change ("_" +:+ ?x) with (String "_" x). rewrite match_lit.
    apply match_digits; [exact Di|reflexivity|].
    change ("_" +:+ ?x) with (String "_" x). rewrite match_lit.
    apply match_digits; [exact Dj|reflexivity|].
    vm_compute. reflexivity. }
  unfold parse_name. rewrite (re_search_here _ _ _ Hm).
  rewrite (py_int_digits _ Dt), (py_int_digits _ Di), (py_int_digits _ Dj).
  rewrite Vt, Vi, Vj. reflexivity.
Qed.

(** ** The message of the lookup error *)

Lemma str_app_assoc (a b c : string) : (a +:+ b) +:+ c = a +:+ (b +:+ c).
Proof.
  induction a as [|x a IH]; [reflexivity|].
  change (String x ((a +:+ b) +:+ c) = String x (a +:+ (b +:+ c))).
  f_equal. exact IH.
Qed.

Lemma str_app_inv_head (a b b' : string) : a +:+ b = a +:+ b' -> b = b'.
Proof.
  induction a as [|x a IH]; intros Heq; [exact Heq|].
  change (String x (a +:+ b) = String x (a +:+ b')) in Heq.
  injection Heq as Heq. apply IH, Heq.
Qed.

Lemma not_found_message_flat (t i j : Z) :
  not_found_message t i j
  = "Could not find Tile" +:+ pretty t +:+ "_" +:+ pretty i +:+ "_" +:+ pretty j
    +:+ ".npz in the dataset".
Proof.
  unfold not_found_message, tile_name. rewrite !str_app_assoc. reflexivity.
Qed.

(** Two strings that agree up to a separator occurring in neither prefix. *)
Lemma str_app_sep_inj (c : ascii) (a a' r r' : string) :
  no_char c a = true -> no_char c a' = true ->
  a +:+ String c r = a' +:+ String c r' -> a = a' /\ r = r'.
Proof.
  revert a'. induction a as [|x a IH]; intros [|x' a'] Ha Ha' Heq; simpl in *.
  - injection Heq as ->. auto.
  - injection Heq as -> _. apply andb_true_iff in Ha' as [Hx _].
    apply bool_decide_eq_true in Hx. contradiction.
  - injection Heq as -> _. apply andb_true_iff in Ha as [Hx _].
    apply bool_decide_eq_true in Hx. contradiction.
  - injection Heq as -> Heq.
    apply andb_true_iff in Ha as [_ Ha]. apply andb_true_iff in Ha' as [_ Ha'].
    destruct (IH a' Ha Ha' Heq) as [-> ->]. auto.
Qed.

Lemma no_char_digits (c : ascii) (s : string) :
  is_digit c = false -> all_digits s = true -> no_char c s = true.
Proof.
  intros Hc. induction s as [|x s IH]; simpl; [reflexivity|].
  intros Hs. apply andb_true_iff in Hs as [Hx Hs].
  rewrite IH by exact Hs. rewrite bool_decide_eq_true_2; [reflexivity|].
  intros ->. congruence.
Qed.

Lemma no_char_pretty (c : ascii) (z : Z) :
  is_digit c = false -> c <> "-"%char -> no_char c (pretty z) = true.
Proof.
  intros Hc Hm. destruct z as [|p|p].
  - apply no_char_digits; [exact Hc|reflexivity].
  - apply no_char_digits; [exact Hc|]. apply (pretty_nonneg (Z.pos p)). lia.
  - change (pretty (Z.neg p)) with (String "-" (pretty (Z.pos p))). simpl.
    rewrite bool_decide_eq_true_2 by congruence.
    apply no_char_digits; [exact Hc|]. apply (pretty_nonneg (Z.pos p)). lia.
Qed.

(** The message of the lookup error determines the requested triple. *)
Lemma not_found_message_inj (t i j t' i' j' : Z) :
  not_found_message t i j = not_found_message t' i' j' -> (t, i, j) = (t', i', j').
Proof.
  rewrite !not_found_message_flat. intros Heq.
  apply str_app_inv_head in Heq.
  change ("_" +:+ ?x) with (String "_" x) in Heq.
  apply str_app_sep_inj in Heq as [Ht Heq];
    [|apply no_char_pretty; [reflexivity|discriminate]..].
  apply str_app_sep_inj in Heq as [Hi Heq];
    [|apply no_char_pretty; [reflexivity|discriminate]..].
  change (".npz in the dataset") with (String "." "npz in the dataset") in Heq.
  apply str_app_sep_inj in Heq as [Hj _];
    [|apply no_char_pretty; [reflexivity|discriminate]..].
  apply (inj pretty) in Ht, Hi, Hj. congruence.
Qed.

(** ** Lookup by identifier *)

Section LookupProperties.

Variable load : Path -> result SubtileFile.

(** One turn of the loop on a name the pattern does not match. *)
Lemma find_loop_unmatched (ds : DSE) (t i j : Z) (k : nat) (p : Path) (rest : list Path) :
  re_search pattern (name p) = None ->
  find_loop load ds t i j k (p :: rest)
  = Raise (AttributeError "'NoneType' object has no attribute 'group'").
Proof. intros Hs. simpl. rewrite Hs. reflexivity. Qed.

(** One turn of the loop on a name that parses. *)
Lemma find_loop_parsed (ds : DSE) (t i j : Z) (k : nat) (p : Path) (rest : list Path)
    (tr : Z * Z * Z) :
  parse_name (name p) = Some tr ->
  find_loop load ds t i j k (p :: rest)
  = if decide ((t, i, j) = tr) then getitem load ds (Z.of_nat k)
    else find_loop load ds t i j (S k) rest.
Proof.
  intros Hp. destruct (parse_name_search _ _ Hp) as (a & b & c & Hs & Ha & Hb & Hc).
  destruct tr as [[za zb] zc]. simpl in Ha, Hb, Hc.
  cbn [find_loop]. rewrite Hs. cbn [group or_raise lookup list_lookup Nat.sub mbind result_bind].
  rewrite Ha. cbn [mbind result_bind].
  destruct (decide (t = za)) as [->|Ht].
  - rewrite Hb. cbn [mbind result_bind].
    destruct (decide (i = zb)) as [->|Hi].
    + rewrite Hc. cbn [mbind result_bind].
      destruct (decide (j = zc)) as [->|Hj].
      * rewrite decide_True by reflexivity. reflexivity.
      * rewrite decide_False by congruence. reflexivity.
    + rewrite decide_False by congruence. reflexivity.
  - rewrite decide_False by congruence. reflexivity.
Qed.

Lemma find_loop_skip (ds : DSE) (t i j : Z) (pre rest : list Path) :
  forall k,
    (forall p, p ∈ pre -> exists tr, parse_name (name p) = Some tr /\ tr <> (t, i, j)) ->
    find_loop load ds t i j k (pre ++ rest) = find_loop load ds t i j (k + length pre) rest.
Proof.
  induction pre as [|p pre IH]; intros k Hpre.
  - simpl. rewrite Nat.add_0_r. reflexivity.
  - destruct (Hpre p (list_elem_of_here _ _)) as (tr & Hp & Hne).
    change ((p :: pre) ++ rest) with (p :: (pre ++ rest)).
    rewrite (find_loop_parsed ds t i j k p _ tr Hp).
    rewrite decide_False by congruence.
    rewrite IH by (intros q Hq; apply Hpre, list_elem_of_further, Hq).
    simpl. f_equal. lia.
Qed.

(** C10. When a file name that the pattern does not match stands in the
    list before any file that parses to the requested triple, [find_subtile]
    fails with the AttributeError of reading a group of a failed match; the
    name is not skipped, whatever follows it in the list. *)
Theorem find_subtile_unmatched_name (ds : DSE) (t i j : Z) (pre post : list Path) (bad : Path) :
  tiles ds = pre ++ bad :: post ->
  re_search pattern (name bad) = None ->
  (forall p, p ∈ pre -> parse_name (name p) <> Some (t, i, j)) ->
  find_subtile load ds t i j
  = Raise (AttributeError "'NoneType' object has no attribute 'group'").
Proof.
  intros Htiles Hbad Hpre. unfold find_subtile. rewrite Htiles.
  generalize 0 as k. clear Htiles.
  induction pre as [|p pre IH]; intros k.
  - apply find_loop_unmatched, Hbad.
  - change ((p :: pre) ++ bad :: post) with (p :: (pre ++ bad :: post)).
    destruct (re_search pattern (name p)) as [g|] eqn:Hs.
    + destruct (re_search_pattern _ _ Hs) as (a & b & c & _ & _ & _ & _ & Hp).
      rewrite (find_loop_parsed ds t i j k p _ _ Hp).
      rewrite decide_False.
      * apply IH. intros q Hq. apply Hpre, list_elem_of_further, Hq.
      * intros Heq. apply (Hpre p (list_elem_of_here _ _)). rewrite Hp, Heq. reflexivity.
    + apply find_loop_unmatched, Hs.
Qed.

(** C8, as the code has it.  When the pattern matches every file name of
    the list and no name parses to the requested triple, [find_subtile]
    raises the ValueError whose message spells the file name of the triple;
    no other triple has this message. *)
Theorem find_subtile_not_found (ds : DSE) (t i j : Z) :
  (forall p, p ∈ tiles ds -> is_Some (re_search pattern (name p))) ->
  (forall p, p ∈ tiles ds -> parse_name (name p) <> Some (t, i, j)) ->
  find_subtile load ds t i j
  = Raise (ValueError ("Could not find " +:+ tile_name t i j +:+ " in the dataset")) /\
  (forall t' i' j',
     "Could not find " +:+ tile_name t' i' j' +:+ " in the dataset"
     = "Could not find " +:+ tile_name t i j +:+ " in the dataset" ->
     (t', i', j') = (t, i, j)).
Proof.
  intros Hall Hnone. split; [|intros t' i' j'; apply not_found_message_inj].
  unfold find_subtile.
  rewrite <- (app_nil_r (tiles ds)).
  rewrite find_loop_skip; [reflexivity|].
  intros p Hp. destruct (Hall p Hp) as [g Hg].
  destruct (re_search_pattern _ _ Hg) as (a & b & c & _ & _ & _ & _ & Hparse).
  eexists. split; [exact Hparse|].
  intros Heq. apply (Hnone p Hp). rewrite Hparse, Heq. reflexivity.
Qed.

End LookupProperties.

Section LookupCorrect.

Variable load : Path -> result SubtileFile.

(** C7, as the code has it.  When the file at position [k] is named
    [Tile{t}_{i}_{j}.npz] for non-negative integers, and every file before it
    has a name that the pattern matches and that parses to another triple,
    [find_subtile t i j] is the positional accessor at [k]: the same sample,
    or the same exception. *)
Theorem find_subtile_getitem (ds : DSE) (t i j : Z) (k : nat) (p : Path) :
  (0 <= t)%Z -> (0 <= i)%Z -> (0 <= j)%Z ->
  tiles ds !! k = Some p ->
  name p = tile_name t i j ->
  (forall k' q, k' < k -> tiles ds !! k' = Some q ->
     exists tr, parse_name (name q) = Some tr /\ tr <> (t, i, j)) ->
  find_subtile load ds t i j = getitem load ds (Z.of_nat k).
Proof.
  intros Ht Hi Hj Hk Hname Hbefore. unfold find_subtile.
  rewrite <- (take_drop_middle (tiles ds) k p Hk).
  rewrite find_loop_skip.
  - rewrite (find_loop_parsed load ds t i j _ p _ (t, i, j))
      by (rewrite Hname; apply parse_tile_name; assumption).
    rewrite decide_True by reflexivity.
    rewrite length_take. apply lookup_lt_Some in Hk.
    do 2 f_equal. lia.
  - intros q Hq. apply list_elem_of_lookup in Hq as (k' & Hk').
    pose proof (lookup_lt_Some _ _ _ Hk') as Hlt. rewrite length_take in Hlt.
    rewrite lookup_take_lt in Hk' by lia.
    apply (Hbefore k' q); [lia|exact Hk'].
Qed.

End LookupCorrect.

(** ** The lookup claims on concrete datasets *)

Lemma aggregate_time_row_major_witness :
  exists out,
    aggregate_time (mk_ndarray [2; 3; 4; 4] (Z.of_nat <$> seq 0 96) int16) = OK out /\
    shape out = [2 * 3; 4; 4] /\
    forall t b y x, b < 3 ->
      get3 out (t * 3 + b) y x
      = get4 (mk_ndarray [2; 3; 4; 4] (Z.of_nat <$> seq 0 96) int16) t b y x.
Proof.
  apply (aggregate_time_row_major (mk_ndarray [2; 3; 4; 4] (Z.of_nat <$> seq 0 96) int16) 2 3 4 4).
  reflexivity.
Defined.

Lemma find_subtile_getitem_witness :
  find_subtile example_load (example_ds None ["Tile2_0_0.npz"; "Tile1_0_0.npz"]) 1 0 0
  = getitem example_load (example_ds None ["Tile2_0_0.npz"; "Tile1_0_0.npz"]) (Z.of_nat 1).
Proof.
  apply (find_subtile_getitem example_load
           (example_ds None ["Tile2_0_0.npz"; "Tile1_0_0.npz"]) 1 0 0 1
           (mk_path "data" "Tile1_0_0.npz")); [lia|lia|lia|reflexivity|vm_compute; reflexivity|].
  intros k' q Hk' Hq. destruct k' as [|k']; [|lia].
  injection Hq as <-. exists (2, 0, 0)%Z. split; [vm_compute; reflexivity|discriminate].
Defined.

(** C7 as stated fails: with the files [Tile01_0_0.npz] and [Tile1_0_0.npz]
    in this order, the file named [Tile1_0_0.npz] is at position 1, but
    [find_subtile 1 0 0] stops at position 0, whose name parses to the same
    triple, and returns another sample. *)
Lemma find_subtile_getitem_counterexample :
  let ds := example_ds None ["Tile01_0_0.npz"; "Tile1_0_0.npz"] in
  name <$> tiles ds !! 1 = Some (tile_name 1 0 0) /\
  find_subtile example_load ds 1 0 0 = getitem example_load ds 0 /\
  find_subtile example_load ds 1 0 0 <> getitem example_load ds 1.
Proof.
  split; [vm_compute; reflexivity|]. split; [vm_compute; reflexivity|].
  vm_compute. discriminate.
Qed.

(** A name that the pattern does not match in front of the file has the
    same effect on C7: the lookup raises, the positional accessor returns. *)
Example find_subtile_getitem_unmatched :
  let ds := example_ds None ["notes.npz"; "Tile1_0_0.npz"] in
  find_subtile example_load ds 1 0 0
  = Raise (AttributeError "'NoneType' object has no attribute 'group'") /\
  exists r, getitem example_load ds 1 = OK r.
Proof. split; [vm_compute; reflexivity|]. eexists. vm_compute. reflexivity. Qed.

Lemma find_subtile_not_found_witness :
  find_subtile example_load (example_ds None ["Tile1_0_0.npz"; "Tile2_0_0.npz"]) 3 0 0
  = Raise (ValueError ("Could not find " +:+ tile_name 3 0 0 +:+ " in the dataset")) /\
  (forall t' i' j',
     "Could not find " +:+ tile_name t' i' j' +:+ " in the dataset"
     = "Could not find " +:+ tile_name 3 0 0 +:+ " in the dataset" ->
     (t', i', j') = (3, 0, 0)%Z).
Proof.
  apply (find_subtile_not_found example_load
           (example_ds None ["Tile1_0_0.npz"; "Tile2_0_0.npz"]) 3 0 0).
  - intros p Hp. simpl in Hp.
    apply elem_of_cons in Hp as [->|Hp]; [vm_compute; eauto|].
    apply list_elem_of_singleton in Hp as ->. vm_compute. eauto.
  - intros p Hp. simpl in Hp.
    apply elem_of_cons in Hp as [->|Hp]; [vm_compute; discriminate|].
    apply list_elem_of_singleton in Hp as ->. vm_compute. discriminate.
Defined.

(** The message of that error. *)
Example not_found_message_3_0_0 :
  not_found_message 3 0 0 = "Could not find Tile3_0_0.npz in the dataset".
Proof. vm_compute. reflexivity. Qed.

(** C8 as stated fails: no file of the list matches the triple (1, 0, 0),
    and [find_subtile] raises the AttributeError of the failed match on
    [notes.npz], not the lookup error. *)
Lemma find_subtile_not_found_counterexample :
  let ds := example_ds None ["notes.npz"] in
  (forall p, p ∈ tiles ds -> parse_name (name p) <> Some (1, 0, 0)%Z) /\
  find_subtile example_load ds 1 0 0
  = Raise (AttributeError "'NoneType' object has no attribute 'group'") /\
  find_subtile example_load ds 1 0 0 <> Raise (ValueError (not_found_message 1 0 0)).
Proof.
  split.
  - intros p Hp. simpl in Hp. apply list_elem_of_singleton in Hp as ->.
    vm_compute. discriminate.
  - split; [vm_compute; reflexivity|]. vm_compute. discriminate.
Qed.

Lemma find_subtile_unmatched_name_witness :
  find_subtile example_load
    (example_ds None ["Tile2_0_0.npz"; "notes.npz"; "Tile1_0_0.npz"]) 1 0 0
  = Raise (AttributeError "'NoneType' object has no attribute 'group'").
Proof.
  apply (find_subtile_unmatched_name example_load
           (example_ds None ["Tile2_0_0.npz"; "notes.npz"; "Tile1_0_0.npz"]) 1 0 0
           [mk_path "data" "Tile2_0_0.npz"] [mk_path "data" "Tile1_0_0.npz"]
           (mk_path "data" "notes.npz")); [reflexivity|vm_compute; reflexivity|].
  intros p Hp. apply list_elem_of_singleton in Hp as ->. vm_compute. discriminate.
Defined.

(** * Further properties of the accessor *)

Section AccessorEdges.

Variable load : Path -> result SubtileFile.

(** X1. A negative index counts from the end of the file list: for
    [-len <= idx < 0], [__getitem__(idx)] is [__getitem__(len + idx)]. *)
Theorem getitem_negative_index (ds : DSE) (idx : Z) :
  (- Z.of_nat (len ds) <= idx < 0)%Z ->
  getitem load ds idx = getitem load ds (Z.of_nat (len ds) + idx).
Proof.
  intros [Hlo Hhi]. unfold getitem, py_index, len in *.
  rewrite (decide_False (P := (0 <= idx)%Z)) by lia.
  rewrite (decide_True (P := (- Z.of_nat (length (tiles ds)) <= idx)%Z)) by lia.
  rewrite (decide_True (P := (0 <= Z.of_nat (length (tiles ds)) + idx)%Z)) by lia.
  reflexivity.
Qed.

(** X2. An index outside [-len, len) raises IndexError, before anything is
    loaded. *)
Theorem getitem_index_error (ds : DSE) (idx : Z) :
  (idx < - Z.of_nat (len ds) \/ Z.of_nat (len ds) <= idx)%Z ->
  getitem load ds idx = Raise IndexError.
Proof.
  intros Hout. unfold getitem, py_index, len in *.
  destruct (decide (0 <= idx)%Z) as [Hpos|Hneg].
  - rewrite lookup_ge_None_2 by lia. reflexivity.
  - rewrite decide_False by lia. reflexivity.
Qed.

(** The accessor on a bundle that can be selected and stacked, up to the
    label: what is left is the squeeze of the ground truth, the transform and
    the shift. *)
Lemma getitem_assembled (h w : nat) (ds : DSE) (idx : Z) (p : Path) (f : SubtileFile) :
  (0 <= idx)%Z -> tiles ds !! Z.to_nat idx = Some p -> load p = OK f ->
  bundle_ok h w (selected_bands ds) f = true ->
  exists stack' meta' s' X,
    select_bands ds (Subtile_of_file f).1 (Subtile_of_file f).2 = OK (stack', meta', s') /\
    stack_loop stack' XList = OK X /\
    getitem load ds idx =
    (y ← dict_getitem "gt" (file_stack f);
     y ← np_squeeze0 y;
     '(X', y') ← match transform ds with
                 | Some tr => tr X y
                 | None => OK (X, y)
                 end;
     OK ((X', sub_scalar y' 1, meta'), s')).
Proof.
  intros Hidx Hp Hload Hok.
  rewrite (getitem_stages load ds idx p f Hidx Hp Hload).
  assert (exists stack' meta' s',
            select_bands ds (Subtile_of_file f).1 (Subtile_of_file f).2
            = OK (stack', meta', s') /\ stackable h w stack' = true)
    as (stack' & meta' & s' & Hsb & Hst).
  { destruct (selected_bands ds) as [sel|] eqn:Hsel; simpl in Hok.
    - destruct (select_bands_loaded h w ds sel f Hsel Hok) as (ext & Heq).
      eexists _, _, _. split; [exact Heq|]. apply selected_stack_stackable, Hok.
    - destruct (select_bands_none ds f Hsel) as (m' & ext & Heq).
      eexists _, _, _. split; [exact Heq|exact Hok]. }
  destruct (stack_loop_ok h w stack' Hst XList 0 I eq_refl) as (X & HX & _ & _).
  exists stack', meta', s', X. rewrite Hsb. repeat split; auto.
  cbn [mbind result_bind].
  destruct (dict_getitem "gt" (file_stack f)) as [y|e]; [|reflexivity].
  cbn [mbind result_bind]. rewrite HX. reflexivity.
Qed.

(** X3. A bundle without a ground-truth source makes the accessor raise
    KeyError('gt'), also when the selection and the other sources are fine. *)
Theorem getitem_missing_gt (h w : nat) (ds : DSE) (idx : Z) (p : Path) (f : SubtileFile) :
  (0 <= idx)%Z -> tiles ds !! Z.to_nat idx = Some p -> load p = OK f ->
  bundle_ok h w (selected_bands ds) f = true ->
  dict_get "gt" (file_stack f) = None ->
  getitem load ds idx = Raise (KeyError "gt").
Proof.
  intros Hidx Hp Hload Hok Hg.
  destruct (getitem_assembled h w ds idx p f Hidx Hp Hload Hok)
    as (stack' & meta' & s' & X & _ & _ & ->).
  unfold dict_getitem. rewrite Hg. reflexivity.
Qed.

(** X4. A ground truth whose first axis is not of size 1 makes the accessor
    raise the ValueError of [np.squeeze], whatever the transform. *)
Theorem getitem_bad_time_axis (h w : nat) (ds : DSE) (idx : Z) (p : Path) (f : SubtileFile)
    (g : ndarray) (n : nat) (rest : list nat) :
  (0 <= idx)%Z -> tiles ds !! Z.to_nat idx = Some p -> load p = OK f ->
  bundle_ok h w (selected_bands ds) f = true ->
  dict_get "gt" (file_stack f) = Some g ->
  shape g = n :: rest -> n <> 1 ->
  getitem load ds idx
  = Raise (ValueError "cannot select an axis to squeeze out which has size not equal to one").
Proof.
  intros Hidx Hp Hload Hok Hg Hs Hn.
  destruct (getitem_assembled h w ds idx p f Hidx Hp Hload Hok)
    as (stack' & meta' & s' & X & _ & _ & ->).
  unfold dict_getitem. rewrite Hg. cbn [or_raise mbind result_bind].
  unfold np_squeeze0. rewrite Hs.
  destruct n as [|[|n]]; [reflexivity|contradiction|reflexivity].
Qed.

(** X5. With a transform, the transform receives the stacked input and the
    squeezed label before the shift; the accessor returns the transform's
    input and the transform's label minus 1, and an exception of the
    transform is the exception of the accessor. *)
Theorem getitem_transform (h w : nat) (ds : DSE) (idx : Z) (p : Path) (f : SubtileFile)
    (g : ndarray) (rest : list nat) (tr : Transform) :
  (0 <= idx)%Z -> tiles ds !! Z.to_nat idx = Some p -> load p = OK f ->
  bundle_ok h w (selected_bands ds) f = true ->
  dict_get "gt" (file_stack f) = Some g ->
  shape g = 1 :: rest ->
  transform ds = Some tr ->
  exists stack' meta' s' X,
    select_bands ds (Subtile_of_file f).1 (Subtile_of_file f).2 = OK (stack', meta', s') /\
    stack_loop stack' XList = OK X /\
    getitem load ds idx =
    match tr X (mk_ndarray rest (data g) (dtype g)) with
    | OK (X', y') => OK ((X', sub_scalar y' 1, meta'), s')
    | Raise e => Raise e
    end.
Proof.
  intros Hidx Hp Hload Hok Hg Hs Htr.
  destruct (getitem_assembled h w ds idx p f Hidx Hp Hload Hok)
    as (stack' & meta' & s' & X & Hsb & HX & ->).
  exists stack', meta', s', X. split; [exact Hsb|]. split; [exact HX|].
  unfold dict_getitem. rewrite Hg. cbn [or_raise mbind result_bind].
  unfold np_squeeze0. rewrite Hs, Htr. cbn [mbind result_bind].
  destruct (tr X (mk_ndarray rest (data g) (dtype g))) as [[X' y']|e]; reflexivity.
Qed.

(** X6. An empty selection is still a selection: every source is left out,
    the input is the empty Python list (not an array) and the returned
    metadata has no entry. *)
Theorem getitem_empty_selection (ds : DSE) (idx : Z) (p : Path) (f : SubtileFile)
    (g : ndarray) (rest : list nat) :
  (0 <= idx)%Z -> tiles ds !! Z.to_nat idx = Some p -> load p = OK f ->
  selected_bands ds = Some [] ->
  transform ds = None ->
  dict_get "gt" (file_stack f) = Some g ->
  shape g = 1 :: rest ->
  exists s,
    getitem load ds idx
    = OK ((XList, sub_scalar (mk_ndarray rest (data g) (dtype g)) 1, mk_metadata []), s).
Proof.
  intros Hidx Hp Hload Hsel Htr Hg Hs.
  rewrite (getitem_stages load ds idx p f Hidx Hp Hload).
  destruct (select_bands_loaded 0 0 ds [] f Hsel eq_refl) as (ext & ->).
  eexists. cbn [mbind result_bind fmap list_fmap dict_keys stack_loop].
  unfold dict_getitem. rewrite Hg. cbn [or_raise mbind result_bind].
  unfold np_squeeze0. rewrite Hs, Htr. reflexivity.
Qed.

End AccessorEdges.

(** ** A selection that names a missing source *)

Lemma dict_get_app {V} (k : string) (d1 d2 : dict V) :
  dict_get k (d1 ++ d2)
  = match dict_get k d1 with
    | Some v => Some v
    | None => dict_get k d2
    end.
Proof.
  induction d1 as [|[k' v] d1 IH]; simpl; [reflexivity|].
  destruct (decide (k = k')); [reflexivity|exact IH].
Qed.

Lemma select_bands_loop_app (sel : dict (list string)) (sub : Subtile)
    (ks1 ks2 : list string) (acc : dict ndarray * TileMetadata * list SatelliteMetadata) :
  select_bands_loop sel sub (ks1 ++ ks2) acc
  = (acc' ← select_bands_loop sel sub ks1 acc; select_bands_loop sel sub ks2 acc').
Proof.
  revert acc. induction ks1 as [|k ks1 IH]; intros acc; [reflexivity|].
  simpl. destruct (select_bands_step sel sub acc k) as [acc'|e]; [|reflexivity].
  cbn [mbind result_bind]. apply IH.
Qed.

Lemma loaded_key_None (f : SubtileFile) (k : string) :
  dict_get k (file_bands f) = None ->
  dict_get k (satellites (tile_metadata (Subtile_of_file f).1)) = None.
Proof.
  intros Hk. simpl.
  pose proof (dict_get_imap_index (file_bands f) 0 k) as Hidx. simpl in Hidx.
  rewrite Hidx.
  destruct (list_find (fun kv => kv.1 = k) (file_bands f)) as [[n [k' bs]]|] eqn:Hfind;
    [|reflexivity].
  apply list_find_Some in Hfind as (Hn & Hk' & _). simpl in Hk'. subst k'.
  apply dict_get_None in Hk. exfalso. apply Hk.
  apply list_elem_of_fmap. exists (k, bs). split; [reflexivity|].
  apply list_elem_of_lookup. eauto.
Qed.

(** The loop of [__select_bands] over the keys of a fitting part [pre] of
    the selection [sel]. *)
Lemma select_bands_loop_prefix (h w : nat) (sel pre : dict (list string)) (f : SubtileFile)
    (ext : list SatelliteMetadata) (st : dict ndarray) (nm : TileMetadata) :
  selection_ok h w pre f = true ->
  (forall k, k ∈ dict_keys pre -> dict_get k sel = dict_get k pre) ->
  select_bands_loop sel (Subtile_of_file f).1 (dict_keys pre)
    (st, nm, (Subtile_of_file f).2 ++ ext)
  = OK (foldl (fun d k => dict_set k (sliced_source pre f k) d) st (dict_keys pre),
        mk_metadata (foldl (fun d k => dict_set k (object_of f k) d) (satellites nm)
                       (dict_keys pre)),
        store_after_selection pre f ((Subtile_of_file f).2 ++ ext)).
Proof.
  intros Hok Hsame.
  apply (select_bands_loop_ok sel (Subtile_of_file f).1 (object_of f)
           (bands_in_file f) (requested pre) (array_in_file f) (sliced_source pre f)).
  - exact (selection_ok_NoDup _ _ _ _ Hok).
  - intros k Hk.
    destruct (selection_ok_key _ _ _ _ _ Hok Hk)
      as (bs & a & t & b & h' & w' & rest & Hb & Ha & Hs & Hlen & _).
    destruct (sliced_source_ok _ _ _ _ _ Hok Hk) as (? & ? & ? & ? & ? & _ & Htb & _).
    repeat split.
    + apply (object_of_spec f k bs Hb).
    + rewrite (Hsame k Hk). apply requested_key, Hk.
    + simpl. unfold array_in_file. rewrite Ha. reflexivity.
    + exact Htb.
  - intros k1 k2 Hk1 Hk2.
    destruct (selection_ok_key _ _ _ _ _ Hok Hk1) as (b1 & ? & ? & ? & ? & ? & ? & Hb1 & _).
    destruct (selection_ok_key _ _ _ _ _ Hok Hk2) as (b2 & ? & ? & ? & ? & ? & ? & Hb2 & _).
    apply object_of_inj; eauto.
  - intros k Hk.
    destruct (selection_ok_key _ _ _ _ _ Hok Hk) as (bs & ? & ? & ? & ? & ? & ? & Hb & _).
    pose proof (object_of_store f k bs Hb) as Hst.
    rewrite lookup_app_l by (apply lookup_lt_Some in Hst; exact Hst).
    rewrite Hst. unfold bands_in_file. rewrite Hb. reflexivity.
Qed.

(** The objects of the keys outside [pre] are as loaded after the loop
    over [pre]. *)
Lemma store_after_selection_other (h w : nat) (pre : dict (list string)) (f : SubtileFile)
    (ext : list SatelliteMetadata) (k : string) (bs : list string) :
  selection_ok h w pre f = true -> k ∉ dict_keys pre ->
  dict_get k (file_bands f) = Some bs ->
  store_after_selection pre f ((Subtile_of_file f).2 ++ ext) !! object_of f k
  = Some (mk_satellite bs).
Proof.
  intros Hok Hk Hb. unfold store_after_selection.
  rewrite foldl_insert_other.
  - pose proof (object_of_store f k bs Hb) as Hst.
    rewrite lookup_app_l by (apply lookup_lt_Some in Hst; exact Hst). exact Hst.
  - intros Hin. apply list_elem_of_fmap in Hin as (k' & Heq & Hk').
    destruct (selection_ok_key _ _ _ _ _ Hok Hk') as (b' & ? & ? & ? & ? & ? & ? & Hb' & _).
    apply Hk. rewrite (object_of_inj f k k'); eauto.
Qed.

Section MissingSource.

Variable load : Path -> result SubtileFile.

(** X7. A key of the selection that names no source of the bundle (no band
    list in the metadata, or no array in the stack) makes the accessor raise
    KeyError with that key, once the keys before it have been processed. *)
Theorem getitem_selection_missing_source (h w : nat) (ds : DSE) (idx : Z) (p : Path)
    (f : SubtileFile) (pre post : dict (list string)) (k : string) (r : list string) :
  (0 <= idx)%Z -> tiles ds !! Z.to_nat idx = Some p -> load p = OK f ->
  selected_bands ds = Some (pre ++ (k, r) :: post) ->
  selection_ok h w pre f = true ->
  k ∉ dict_keys pre ->
  dict_get k (file_bands f) = None \/ dict_get k (file_stack f) = None ->
  getitem load ds idx = Raise (KeyError k).
Proof.
  intros Hidx Hp Hload Hsel Hok Hk Hmiss.
  rewrite (getitem_stages load ds idx p f Hidx Hp Hload).
  unfold select_bands. destruct (deepcopy_loaded f) as (m' & ext & ->).
  cbn [mbind result_bind]. rewrite Hsel.
  unfold dict_keys. rewrite fmap_app, fmap_cons. fold (dict_keys pre). fold (dict_keys post).
  rewrite select_bands_loop_app.
  rewrite (select_bands_loop_prefix h w _ pre f ext [] (mk_metadata []) Hok).
  2:{ intros k' Hk'. rewrite dict_get_app.
      destruct (dict_get_key pre k' Hk') as [v ->]. reflexivity. }
  cbn [mbind result_bind select_bands_loop select_bands_step].
  change ((k, r).1) with k.
  unfold dict_getitem.
  destruct (dict_get k (file_bands f)) as [bs|] eqn:Hb.
  - destruct Hmiss as [Hmiss|Hmiss]; [discriminate|].
    destruct (object_of_spec f k bs Hb) as [-> _]. cbn [or_raise mbind result_bind].
    unfold get_bands, set_bands.
    rewrite (store_after_selection_other h w pre f ext k bs Hok Hk Hb).
    cbn [fmap option_fmap option_map or_raise mbind result_bind].
    rewrite dict_get_app.
    apply dict_get_None in Hk. rewrite Hk. cbn [dict_get].
    rewrite decide_True by reflexivity. cbn [or_raise mbind result_bind].
    change (satellite_stack (Subtile_of_file f).1) with (file_stack f).
    rewrite Hmiss. reflexivity.
  - rewrite (loaded_key_None f k Hb). reflexivity.
Qed.

End MissingSource.

(** ** Stacking *)

Lemma stack_loop_app (l1 l2 : dict ndarray) (X : xval) :
  stack_loop (l1 ++ l2) X = (X' ← stack_loop l1 X; stack_loop l2 X').
Proof.
  revert X. induction l1 as [|[k a] l1 IH]; intros X; [reflexivity|].
  simpl. destruct (decide (k ≠ "gt")) as [Hk|Hk]; [|apply IH].
  destruct X as [|x].
  { destruct (aggregate_time a); [apply IH|reflexivity]. }
  destruct (py_len (XArray x)) as [n|e]; [|reflexivity]. cbn [mbind result_bind].
  destruct (decide (n = 0)) as [Hn|Hn].
  - destruct (aggregate_time a); [apply IH|reflexivity].
  - destruct (aggregate_time a) as [a'|]; [|reflexivity]. cbn [mbind result_bind].
    destruct (np_concatenate x a'); [apply IH|reflexivity].
Qed.

Lemma take_bands_wf (a out : ndarray) (t b h w : nat) (rest indices : list nat) :
  shape a = t :: b :: h :: w :: rest -> wf_array a ->
  take_bands a indices = OK out -> wf_array out.
Proof.
  intros Hs Hwf Htb. unfold take_bands in Htb. rewrite Hs in Htb.
  destruct (decide (Forall (fun i => i < b) indices)) as [Hall|]; [|discriminate].
  injection Htb as <-. unfold wf_array, np_size in *. rewrite Hs in Hwf.
  cbn [shape data].
  set (blk := prod_list (h :: w :: rest)) in *.
  change (prod_list (t :: b :: h :: w :: rest)) with (t * (b * blk)) in Hwf.
  change (prod_list (t :: length indices :: h :: w :: rest))
    with (t * (length indices * blk)).
  rewrite (flat_map_length_blocks _ (length indices * blk)); [rewrite length_seq; reflexivity|].
  intros ti Hti. apply elem_of_seq in Hti.
  apply flat_map_length_blocks. intros i Hi.
  rewrite Forall_forall in Hall. specialize (Hall i Hi).
  apply slice_length. rewrite Hwf.
  change ((ti * b + i) * blk + blk <= t * (b * blk)).
  replace ((ti * b + i) * blk + blk) with ((ti * b + i + 1) * blk) by ring.
  replace (t * (b * blk)) with (t * b * blk) by ring.
  apply Nat.mul_le_mono_r. nia.
Qed.

(** Stacking well-formed sources of one height and width: the elements of
    the result are those of the sources, one source after the other. *)
Lemma stack_loop_data (h w : nat) (items : dict ndarray) :
  stackable h w items = true ->
  Forall wf_array (non_gt items) ->
  forall X n,
    x_hw h w X -> py_len X = OK n -> x_wf X ->
    exists X',
      stack_loop items X = OK X' /\
      x_hw h w X' /\
      x_wf X' /\
      x_data X' = x_data X ++ concat (data <$> non_gt items).
Proof.
  induction items as [|[k a] items IH]; intros Hst Hwfs X n HX Hn HwfX.
  - exists X. simpl. rewrite app_nil_r. auto.
  - simpl in Hst. apply andb_true_iff in Hst as [Hka Hst]. simpl in Hka.
    simpl. destruct (decide (k ≠ "gt")) as [Hk|Hk].
    + apply orb_true_iff in Hka as [Hka|Hka];
        [apply bool_decide_eq_true in Hka; contradiction|].
      destruct (has_hw_shape _ _ _ Hka) as (t & b & Hs).
      rewrite (non_gt_cons_ne _ _ _ Hk) in *. rewrite !fmap_cons. simpl.
      apply Forall_cons in Hwfs as [Hwfa Hwfs].
      rewrite (aggregate_time_4d _ _ _ _ _ Hs).
      assert (wf_array (mk_ndarray [t * b; h; w] (data a) (dtype a))) as Hwfagg.
      { unfold wf_array, np_size in *. simpl. rewrite Hwfa, Hs. simpl. lia. }
      assert (n = 0 ->
              exists X',
                stack_loop items (XArray (mk_ndarray [t * b; h; w] (data a) (dtype a))) = OK X' /\
                x_hw h w X' /\ x_wf X' /\
                x_data X' = x_data X ++ data a ++ concat (data <$> non_gt items)) as Hfirst.
      { intros ->.
        destruct (IH Hst Hwfs (XArray (mk_ndarray [t * b; h; w] (data a) (dtype a))) (t * b))
          as (X' & H1 & H2 & H3 & H4); [simpl; eauto|reflexivity|exact Hwfagg|].
        exists X'. repeat split; auto.
        rewrite H4. simpl.
        assert (x_data X = []) as ->; [|reflexivity].
        destruct X as [|x]; [reflexivity|].
        simpl in *. destruct HX as (m & Hx). rewrite Hx in Hn. injection Hn as ->.
        unfold wf_array, np_size in HwfX. rewrite Hx in HwfX. simpl in HwfX.
        apply nil_length_inv. exact HwfX. }
      destruct X as [|x].
      { cbn [mbind result_bind]. apply Hfirst. simpl in Hn. congruence. }
      rewrite Hn. cbn [mbind result_bind].
      destruct (decide (n = 0)) as [Hn0|Hn0]; cbn [mbind result_bind].
      * apply Hfirst, Hn0.
      * destruct HX as (m & Hx). simpl in Hn. rewrite Hx in Hn.
        injection Hn as ->. simpl. unfold np_concatenate. rewrite Hx. simpl.
        rewrite decide_True by reflexivity.
        destruct (IH Hst Hwfs
                    (XArray (mk_ndarray [n + t * b; h; w] (data x ++ data a) (result_type (dtype x) (dtype a)))) (n + t * b))
          as (X' & H1 & H2 & H3 & H4); [simpl; eauto|reflexivity| |].
        { unfold x_wf, wf_array, np_size in *. simpl in *.
          rewrite length_app, HwfX, Hwfa, Hx, Hs.
          simpl. lia. }
        exists X'. repeat split; auto.
        rewrite H4. simpl. rewrite <- app_assoc. reflexivity.
    + assert (k = "gt") as Hk' by (destruct (decide (k = "gt")); [auto|contradiction]).
      rewrite (non_gt_cons_eq _ _ _ Hk') in *. apply (IH Hst Hwfs X n); auto.
Qed.

(** X8. A source without channels (time·band = 0) is forgotten when another
    source follows it: the stacking restarts from the next source, whatever
    the height and width of the two. *)
Theorem stack_loop_empty_source_replaced (k1 k2 : string) (a1 a2 : ndarray)
    (t b h w : nat) (items : dict ndarray) :
  k1 ≠ "gt" -> k2 ≠ "gt" ->
  shape a1 = [t; b; h; w] -> t * b = 0 ->
  stack_loop ((k1, a1) :: (k2, a2) :: items) XList
  = stack_loop ((k2, a2) :: items) XList.
Proof.
  intros Hk1 Hk2 Hs Hz. cbn [stack_loop].
  rewrite (decide_True (P := k1 ≠ "gt")) by exact Hk1.
  rewrite (aggregate_time_4d _ _ _ _ _ Hs). cbn [mbind result_bind py_len shape].
  rewrite Hz. rewrite !(decide_True (P := k2 ≠ "gt")) by exact Hk2.
  rewrite (decide_True (P := 0 = 0)) by reflexivity. reflexivity.
Qed.

(** Stacking stops with the ValueError of [np.concatenate] at the first
    source whose height or width differs from the sources stacked so far,
    when these hold at least one channel. *)
Lemma stack_loop_mismatch (h w : nat) (pre post : dict ndarray) (k : string) (a : ndarray)
    (t b h' w' : nat) :
  stackable h w pre = true ->
  sum_list (time_band <$> non_gt pre) <> 0 ->
  k ≠ "gt" ->
  shape a = [t; b; h'; w'] ->
  (h', w') <> (h, w) ->
  stack_loop (pre ++ (k, a) :: post) XList
  = Raise (ValueError
      "all the input array dimensions except for the concatenation axis must match exactly").
Proof.
  intros Hst Hsum Hk Hs Hne. rewrite stack_loop_app.
  destruct (stack_loop_ok h w pre Hst XList 0 I eq_refl) as (X & -> & HX & Hlen).
  cbn [mbind result_bind stack_loop]. rewrite decide_True by exact Hk.
  destruct X as [|x]; [simpl in Hlen; congruence|].
  rewrite Hlen. cbn [mbind result_bind]. rewrite decide_False by exact Hsum.
  rewrite (aggregate_time_4d _ _ _ _ _ Hs). cbn [mbind result_bind].
  destruct HX as (m & Hx). unfold np_concatenate. cbn [shape]. rewrite Hx.
  rewrite decide_False; [reflexivity|]. intros [= -> ->]. congruence.
Qed.

(** ** The positions [__select_indices] returns *)

Lemma select_indices_sorted_go (bs req : list string) (o : nat) :
  StronglySorted lt
    (filter (fun iv => iv.2 ∈ req) (imap (fun index value => (o + index, value)) bs)).*1 /\
  Forall (fun i => o <= i)
    (filter (fun iv => iv.2 ∈ req) (imap (fun index value => (o + index, value)) bs)).*1.
Proof.
  revert o. induction bs as [|b bs IH]; intros o.
  - split; constructor.
  - rewrite imap_cons, filter_cons.
    rewrite (imap_ext _ (fun index value => (S o + index, value)))
      by (intros; simpl; f_equal; lia).
    destruct (IH (S o)) as [Hs Hge]. cbn [snd].
    destruct (decide (b ∈ req)).
    + rewrite fmap_cons. cbn [fst]. split.
      * constructor; [exact Hs|]. eapply Forall_impl; [exact Hge|]. simpl. intros; lia.
      * constructor; [lia|]. eapply Forall_impl; [exact Hge|]. simpl. intros; lia.
    + split; [exact Hs|]. eapply Forall_impl; [exact Hge|]. simpl. intros; lia.
Qed.

(** X10. The positions are strictly increasing: every band of the source is
    taken at most once and in the order of the source, however often and in
    whatever order the request names it. *)
Theorem select_indices_increasing (bs req : list string) :
  StronglySorted lt (select_indices bs req).
Proof. apply (select_indices_sorted_go bs req 0). Qed.

(** X11. The positions depend only on which bands of the source the request
    names: bands the source does not have, repetitions and the order of the
    request change nothing, and none of them raises. *)
Theorem select_indices_membership (bs req req' : list string) :
  (forall v, v ∈ bs -> v ∈ req <-> v ∈ req') ->
  select_indices bs req = select_indices bs req'.
Proof.
  intros Hsame. unfold select_indices. f_equal.
  apply filter_ext_in. intros [i v] Hin.
  apply elem_of_lookup_imap in Hin as (j & x & Heq & Hj).
  injection Heq as -> ->. simpl. apply Hsame. apply list_elem_of_lookup. eauto.
Qed.

Lemma select_indices_all_go (bs req : list string) (o : nat) :
  (forall v, v ∈ bs -> v ∈ req) ->
  (filter (fun iv => iv.2 ∈ req) (imap (fun index value => (o + index, value)) bs)).*1
  = seq o (length bs).
Proof.
  revert o. induction bs as [|b bs IH]; intros o Hall; [reflexivity|].
  rewrite imap_cons, filter_cons.
  rewrite (imap_ext _ (fun index value => (S o + index, value)))
    by (intros; simpl; f_equal; lia).
  cbn [snd]. rewrite decide_True by (apply Hall, list_elem_of_here).
  rewrite fmap_cons, IH by (intros v Hv; apply Hall, list_elem_of_further, Hv).
  cbn [fst length seq]. rewrite Nat.add_0_r. reflexivity.
Qed.

Lemma slice_app {A} (off m m' : nat) (l : list A) :
  slice off m l ++ slice (off + m) m' l = slice off (m + m') l.
Proof.
  unfold slice. rewrite <- (take_take_drop (drop off l) m m'), drop_drop. reflexivity.
Qed.

(** Consecutive blocks, put one after the other, are one run. *)
Lemma flat_map_slices {A} (l : list A) (blk o n : nat) :
  flat_map (fun i => slice ((o + i) * blk) blk l) (seq 0 n) = slice (o * blk) (n * blk) l.
Proof.
  induction n as [|n IH].
  - unfold slice. simpl. rewrite take_0. reflexivity.
  - rewrite seq_S, flat_map_app, IH. simpl. rewrite app_nil_r.
    replace ((o + n) * blk) with (o * blk + n * blk) by ring.
    rewrite slice_app. f_equal. ring.
Qed.

Lemma take_bands_all (a : ndarray) (t b h w : nat) (rest : list nat) :
  shape a = t :: b :: h :: w :: rest -> wf_array a ->
  take_bands a (seq 0 b) = OK a.
Proof.
  intros Hs Hwf. unfold take_bands. rewrite Hs.
  rewrite decide_True
    by (apply Forall_forall; intros i Hi; apply elem_of_seq in Hi; lia).
  rewrite length_seq. destruct a as [sh d]. simpl in *. subst sh. do 2 f_equal.
  unfold wf_array, np_size in Hwf. simpl in Hwf.
  set (blk := h * (w * prod_list rest)) in *.
  change (prod_list (h :: w :: rest)) with blk.
  rewrite (flat_map_ext _ (fun ti => slice ((0 + ti) * (b * blk)) (b * blk) d)).
  - rewrite flat_map_slices. unfold slice. simpl. apply take_ge. lia.
  - intros ti. rewrite flat_map_slices. f_equal. simpl. ring.
Qed.

(** X12. A request that names every band of a source leaves its array as it
    is: the slice of a well-formed array at all the positions of its band
    axis is the array itself. *)
Theorem select_all_bands_identity (a : ndarray) (t b h w : nat) (rest : list nat)
    (bs req : list string) :
  shape a = t :: b :: h :: w :: rest -> wf_array a ->
  length bs = b ->
  (forall v, v ∈ bs -> v ∈ req) ->
  take_bands a (select_indices bs req) = OK a.
Proof.
  intros Hs Hwf Hlen Hall.
  assert (select_indices bs req = seq 0 (length bs)) as ->
    by apply (select_indices_all_go bs req 0 Hall).
  rewrite Hlen. apply (take_bands_all a t b h w rest Hs Hwf).
Qed.

(** X13. A request that names no band of the source gives an array without
    bands, of shape (time, 0, height, width) and without elements; nothing
    is raised. *)
Theorem select_no_band_empty (a : ndarray) (t b h w : nat) (rest : list nat)
    (bs req : list string) :
  shape a = t :: b :: h :: w :: rest ->
  (forall v, v ∈ bs -> v ∉ req) ->
  take_bands a (select_indices bs req) = OK (mk_ndarray (t :: 0 :: h :: w :: rest) [] (dtype a)).
Proof.
  intros Hs Hnone.
  rewrite (select_indices_membership bs req []).
  - assert (select_indices bs [] = []) as ->.
    { apply elem_of_nil_inv. intros i Hi.
      apply elem_of_select_indices in Hi as (v & _ & Hv). by apply elem_of_nil in Hv. }
    unfold take_bands. rewrite Hs. rewrite decide_True by constructor.
    do 2 f_equal. simpl. induction (seq 0 t) as [|ti l IHl]; [reflexivity|exact IHl].
  - intros v Hv. split; [intros Hin; destruct (Hnone v Hv Hin)|].
    intros Hin. by apply elem_of_nil in Hin.
Qed.

(** ** Without a selection: the metadata is copied *)

Lemma Forall2_with_Forall_l {A B} (P : A -> Prop) (R : A -> B -> Prop)
    (l : list A) (l' : list B) :
  Forall P l -> Forall2 R l l' -> Forall2 (fun x y => P x /\ R x y) l l'.
Proof.
  intros HP HR. induction HR as [|x y l l' Hxy HR IH]; [constructor|].
  apply Forall_cons in HP as [Hx HP]. constructor; auto.
Qed.

Lemma satellite_eta (x : SatelliteMetadata) : mk_satellite (bands x) = x.
Proof. destruct x. reflexivity. Qed.

(** [deepcopy]: the copy has the keys of the original, every object of the
    copy is new (at or after position [n0]) and equal to the object it
    copies, and the store only grows. *)
Lemma deepcopy_satellites_spec (n0 : nat) (d : dict nat) :
  forall (memo : list (nat * nat)) (s : list SatelliteMetadata),
    Forall (fun kl => kl.2 < length s) d ->
    n0 <= length s ->
    (forall l l', (l, l') ∈ memo ->
       n0 <= l' /\ l' < length s /\ l < length s /\ s !! l' = s !! l) ->
    exists d' ext,
      deepcopy_satellites d memo s = OK (d', s ++ ext) /\
      Forall2 (fun kl kl' => kl'.1 = kl.1 /\ n0 <= kl'.2 /\
                             (s ++ ext) !! kl'.2 = s !! kl.2) d d'.
Proof.
  induction d as [|[k l] d IH]; intros memo s Hd Hn0 Hmemo; simpl.
  - exists [], []. rewrite app_nil_r. split; [reflexivity|constructor].
  - apply Forall_cons in Hd as [Hl Hd]. simpl in Hl.
    destruct (list_find (fun p => p.1 = l) memo) as [[i [l0 l']]|] eqn:Hfind.
    + apply list_find_Some in Hfind as (Hi & Hl0 & _). simpl in Hl0. subst l0.
      destruct (Hmemo l l') as (Hge & Hlt & _ & Heq);
        [apply list_elem_of_lookup; eauto|].
      destruct (IH memo s Hd Hn0 Hmemo) as (d' & ext & -> & Hall).
      simpl. exists ((k, l') :: d'), ext. split; [reflexivity|].
      constructor; [|exact Hall]. simpl. repeat split; [exact Hge|].
      rewrite lookup_app_l by exact Hlt. exact Heq.
    + destruct (lookup_lt_is_Some_2 s l Hl) as [x Hx].
      unfold get_bands. rewrite Hx. simpl. rewrite satellite_eta.
      destruct (IH ((l, length s) :: memo) (s ++ [x])) as (d' & ext & -> & Hall).
      * eapply Forall_impl; [exact Hd|]. intros kl. rewrite length_app. simpl. lia.
      * rewrite length_app. simpl. lia.
      * intros l1 l1' Hin. rewrite length_app. simpl.
        apply elem_of_cons in Hin as [[= -> ->]|Hin].
        -- repeat split; try lia.
           rewrite lookup_app_r by lia. rewrite Nat.sub_diag. simpl.
           rewrite lookup_app_l by exact Hl. symmetry. exact Hx.
        -- destruct (Hmemo l1 l1' Hin) as (H1 & H2 & H3 & H4).
           repeat split; try lia. rewrite !lookup_app_l by lia. exact H4.
      * simpl. exists ((k, length s) :: d'), ([x] ++ ext).
        rewrite app_assoc. split; [reflexivity|].
        constructor.
        -- simpl. repeat split; [exact Hn0|].
           rewrite <- app_assoc. rewrite lookup_app_r by lia.
           rewrite Nat.sub_diag. simpl. symmetry. exact Hx.
        -- eapply Forall2_impl; [exact (Forall2_with_Forall_l _ _ _ _ Hd Hall)|]. simpl.
           intros [k1 l1] [k1' l1'] (Hlt & Hk & Hge & Heq). simpl in *.
           repeat split; auto.
           rewrite Heq. apply lookup_app_l. exact Hlt.
Qed.

Lemma dict_get_Forall2 (R : string * nat -> string * nat -> Prop) (d d' : dict nat) :
  Forall2 (fun kl kl' => kl'.1 = kl.1 /\ R kl kl') d d' ->
  forall k,
    match dict_get k d, dict_get k d' with
    | Some l, Some l' => R (k, l) (k, l')
    | None, None => True
    | _, _ => False
    end.
Proof.
  intros Hall k. induction Hall as [|[k0 l] [k0' l'] d d' [Hk HR] Hall IH]; [exact I|].
  simpl in Hk. subst k0'. simpl.
  destruct (decide (k = k0)) as [->|Hne]; [exact HR|exact IH].
Qed.

(** X14. Without a selection, [__select_bands] passes the stack of the
    bundle through and returns a true copy of the metadata: it has the same
    sources and shows the same band lists, it is made of new objects only,
    and the metadata of the loaded bundle still shows what it showed. *)
Theorem select_bands_none_copies (ds : DSE) (f : SubtileFile) :
  selected_bands ds = None ->
  exists m' s',
    select_bands ds (Subtile_of_file f).1 (Subtile_of_file f).2 = OK (file_stack f, m', s') /\
    dict_keys (satellites m') = dict_keys (file_bands f) /\
    (forall k, bands_of s' m' k = dict_get k (file_bands f)) /\
    (forall k, bands_of s' (tile_metadata (Subtile_of_file f).1) k = dict_get k (file_bands f)) /\
    (forall k l', dict_get k (satellites m') = Some l' ->
                  length (Subtile_of_file f).2 <= l').
Proof.
  intros Hsel. unfold select_bands, deepcopy.
  destruct (deepcopy_satellites_spec (length (Subtile_of_file f).2)
              (satellites (tile_metadata (Subtile_of_file f).1)) []
              (Subtile_of_file f).2 (loaded_refs_valid f) (le_n _))
    as (d' & ext & -> & Hall).
  { intros l l' Hin. by apply elem_of_nil in Hin. }
  cbn [mbind result_bind]. rewrite Hsel.
  exists (mk_metadata d'), ((Subtile_of_file f).2 ++ ext).
  split; [reflexivity|].
  pose proof (dict_get_Forall2
                (fun kl kl' => length (Subtile_of_file f).2 <= kl'.2 /\
                               ((Subtile_of_file f).2 ++ ext) !! kl'.2
                               = (Subtile_of_file f).2 !! kl.2) _ _ Hall) as Hget.
  assert (forall k, bands_of (Subtile_of_file f).2 (tile_metadata (Subtile_of_file f).1) k
                    = dict_get k (file_bands f)) as Hloaded.
  { intros k. destruct (dict_get k (file_bands f)) as [bs|] eqn:Hb.
    - apply bands_of_loaded, Hb.
    - unfold bands_of. rewrite (loaded_key_None f k Hb). reflexivity. }
  split; [|split; [|split]].
  - cbn [satellites]. unfold dict_keys.
    assert (d'.*1 = (satellites (tile_metadata (Subtile_of_file f).1)).*1) as ->.
    { clear -Hall. induction Hall as [|x y l l' [Hk _] Hall IH]; [reflexivity|].
      rewrite !fmap_cons, IH, Hk. reflexivity. }
    simpl. generalize (file_bands f) as fb. intros fb.
    rewrite fmap_imap. unfold compose. simpl.
    clear. induction fb as [|[k v] fb IH] using rev_ind; [reflexivity|].
    rewrite imap_app, fmap_app, IH. reflexivity.
  - intros k. rewrite <- Hloaded. unfold bands_of. cbn [satellites]. specialize (Hget k).
    destruct (dict_get k (satellites (tile_metadata (Subtile_of_file f).1))) as [l|];
      destruct (dict_get k d') as [l'|]; try contradiction; [|reflexivity].
    cbn [mbind option_bind]. destruct Hget as [_ Hget]. cbn [snd] in Hget.
    rewrite Hget. reflexivity.
  - intros k. rewrite <- Hloaded. unfold bands_of.
    destruct (dict_get k (satellites (tile_metadata (Subtile_of_file f).1))) as [l|] eqn:Hl;
      [|reflexivity].
    cbn [mbind option_bind]. rewrite lookup_app_l; [reflexivity|].
    apply dict_get_elem_of in Hl.
    pose proof (loaded_refs_valid f) as Hvalid. rewrite Forall_forall in Hvalid.
    apply (Hvalid _ Hl).
  - intros k l' Hl'. cbn [satellites] in Hl'. specialize (Hget k). rewrite Hl' in Hget.
    destruct (dict_get k (satellites (tile_metadata (Subtile_of_file f).1))) as [l|];
      [|contradiction].
    apply Hget.
Qed.

(** ** The elements of the input *)

Lemma non_gt_wf (stack : dict ndarray) :
  Forall (fun kv => wf_array kv.2) stack -> Forall wf_array (non_gt stack).
Proof.
  intros Hall. unfold non_gt. apply Forall_fmap.
  apply Forall_forall. intros kv Hin. apply list_elem_of_filter in Hin as [_ Hin].
  rewrite Forall_forall in Hall. apply (Hall kv Hin).
Qed.

Lemma selected_stack_wf (h w : nat) (sel : dict (list string)) (f : SubtileFile) :
  selection_ok h w sel f = true ->
  Forall (fun kv => wf_array kv.2) (file_stack f) ->
  Forall (fun kv => wf_array kv.2) ((fun k => (k, sliced_source sel f k)) <$> dict_keys sel).
Proof.
  intros Hok Hwf. apply Forall_fmap, Forall_forall. intros k Hk. simpl.
  destruct (selection_ok_key _ _ _ _ _ Hok Hk)
    as (bs & a & t & b & h' & w' & rest & Hb & Ha & Hs & _).
  destruct (sliced_source_ok _ _ _ _ _ Hok Hk) as (? & ? & ? & ? & ? & _ & Htb & _).
  unfold array_in_file in Htb. rewrite Ha in Htb. simpl in Htb.
  eapply (take_bands_wf a _ t b h' w' rest); [exact Hs| |exact Htb].
  rewrite Forall_forall in Hwf. apply (Hwf (k, a)). apply dict_get_elem_of, Ha.
Qed.

Section InputElements.

Variable load : Path -> result SubtileFile.

(** X15. For a bundle of well-formed arrays, the input is a well-formed
    array whose elements are the elements of the filtered sources other than
    the ground truth, one source after the other in the order of the
    filtered stack (the order of the selection, or of the bundle). *)
Theorem getitem_input_elements (h w : nat) (ds : DSE) (idx : Z) (p : Path) (f : SubtileFile)
    (g : ndarray) (rest : list nat) :
  (0 <= idx)%Z -> tiles ds !! Z.to_nat idx = Some p -> load p = OK f ->
  transform ds = None ->
  bundle_ok h w (selected_bands ds) f = true ->
  Forall (fun kv => wf_array kv.2) (file_stack f) ->
  dict_get "gt" (file_stack f) = Some g ->
  shape g = 1 :: rest ->
  exists filtered X y m s,
    select_bands ds (Subtile_of_file f).1 (Subtile_of_file f).2 = OK (filtered, m, s) /\
    getitem load ds idx = OK ((X, y, m), s) /\
    x_wf X /\
    x_data X = concat (data <$> non_gt filtered).
Proof.
  intros Hidx Hp Hload Htr Hok Hwf Hg Hs.
  destruct (getitem_ok load h w ds idx p f g _ Hidx Hp Hload Htr Hok Hg Hs)
    as (stack' & meta' & s' & X & Hsb & HX & _ & Hget).
  assert (stackable h w stack' = true /\ Forall (fun kv => wf_array kv.2) stack')
    as [Hst Hwf'].
  { destruct (selected_bands ds) as [sel|] eqn:Hsel; simpl in Hok.
    - destruct (select_bands_loaded h w ds sel f Hsel Hok) as (ext & Heq).
      rewrite Heq in Hsb. injection Hsb as <- _ _.
      split; [apply selected_stack_stackable, Hok|apply (selected_stack_wf h w), Hwf; exact Hok].
    - destruct (select_bands_none ds f Hsel) as (m' & ext & Heq).
      rewrite Heq in Hsb. injection Hsb as <- _ _. auto. }
  destruct (stack_loop_data h w stack' Hst (non_gt_wf _ Hwf') XList 0 I eq_refl I)
    as (X' & HX' & _ & HwfX & Hdata).
  rewrite HX in HX'. injection HX' as <-.
  eexists stack', X, _, meta', s'. split; [exact Hsb|]. split; [exact Hget|].
  split; [exact HwfX|exact Hdata].
Qed.

(** X9. Without a selection, a source whose height or width differs from
    the sources before it makes the accessor raise the ValueError of
    [np.concatenate], when the sources before it hold at least one channel. *)
Theorem getitem_spatial_mismatch (h w : nat) (ds : DSE) (idx : Z) (p : Path) (f : SubtileFile)
    (pre post : dict ndarray) (k : string) (a g : ndarray) (t b h' w' : nat) :
  (0 <= idx)%Z -> tiles ds !! Z.to_nat idx = Some p -> load p = OK f ->
  selected_bands ds = None ->
  dict_get "gt" (file_stack f) = Some g ->
  file_stack f = pre ++ (k, a) :: post ->
  stackable h w pre = true ->
  sum_list (time_band <$> non_gt pre) <> 0 ->
  k ≠ "gt" ->
  shape a = [t; b; h'; w'] ->
  (h', w') <> (h, w) ->
  getitem load ds idx
  = Raise (ValueError
      "all the input array dimensions except for the concatenation axis must match exactly").
Proof.
  intros Hidx Hp Hload Hsel Hg Hstack Hst Hsum Hk Hs Hne.
  rewrite (getitem_stages load ds idx p f Hidx Hp Hload).
  destruct (select_bands_none ds f Hsel) as (m' & ext & ->).
  cbn [mbind result_bind]. unfold dict_getitem. rewrite Hg.
  cbn [or_raise mbind result_bind]. rewrite Hstack.
  rewrite (stack_loop_mismatch h w pre post k a t b h' w' Hst Hsum Hk Hs Hne).
  reflexivity.
Qed.

End InputElements.

(** X16. With a selection, the filtered stack and the returned metadata
    have exactly the keys of the selection, in the order of the selection:
    a source the selection does not name is left out of the input, and the
    selection decides the order in which the sources are stacked. *)
Theorem select_bands_keys (h w : nat) (ds : DSE) (sel : dict (list string)) (f : SubtileFile) :
  selected_bands ds = Some sel ->
  selection_ok h w sel f = true ->
  exists filtered m s,
    select_bands ds (Subtile_of_file f).1 (Subtile_of_file f).2 = OK (filtered, m, s) /\
    dict_keys filtered = dict_keys sel /\
    dict_keys (satellites m) = dict_keys sel.
Proof.
  intros Hsel Hok.
  destruct (select_bands_loaded h w ds sel f Hsel Hok) as (ext & ->).
  eexists _, _, _. split; [reflexivity|].
  cbn [satellites]. split; unfold dict_keys at 1; apply fmap_keys_fst.
Qed.

(** ** More on the lookup by identifier *)

Lemma int_acc_nonneg (s : string) (acc : Z) : (0 <= acc)%Z -> (0 <= int_acc s acc)%Z.
Proof.
  revert acc. induction s as [|c s IH]; intros acc Hacc; [exact Hacc|].
  simpl. apply IH. unfold digit_value. lia.
Qed.

Lemma parse_name_nonneg (n : string) (a b c : Z) :
  parse_name n = Some (a, b, c) -> (0 <= a)%Z /\ (0 <= b)%Z /\ (0 <= c)%Z.
Proof.
  intros Hp. destruct (parse_name_search _ _ Hp) as (x & y & z & _ & Hx & Hy & Hz).
  simpl in Hx, Hy, Hz. unfold py_int in Hx, Hy, Hz.
  destruct (all_digits x && negb (String.eqb x "")); [|discriminate].
  destruct (all_digits y && negb (String.eqb y "")); [|discriminate].
  destruct (all_digits z && negb (String.eqb z "")); [|discriminate].
  injection Hx as <-. injection Hy as <-. injection Hz as <-.
  repeat split; apply int_acc_nonneg; lia.
Qed.

Lemma match_dot (c : ascii) (p : list item) (s : string) :
  c <> newline -> match_here (Dot :: p) (String c s) = match_here p s.
Proof. intros Hc. simpl. rewrite decide_False by exact Hc. reflexivity. Qed.

(** Every name of the shape [Tile<digits>_<digits>_<digits><c>npz<rest>],
    for a character [c] that is neither a digit nor a newline, parses to the
    three numbers. *)
Lemma parse_name_shape (a b c rest : string) (ch : ascii) :
  digit_string a -> digit_string b -> digit_string c ->
  is_digit ch = false -> ch <> newline ->
  parse_name ("Tile" +:+ a +:+ "_" +:+ b +:+ "_" +:+ c +:+ String ch ("npz" +:+ rest))
  = Some (int_acc a 0, int_acc b 0, int_acc c 0).
Proof.
  intros Da Db Dc Hch Hnl.
  assert (match_here pattern
            ("Tile" +:+ a +:+ "_" +:+ b +:+ "_" +:+ c +:+ String ch ("npz" +:+ rest))
          = Some [a; b; c]) as Hm.
  { change pattern with
      (Lit "T" :: Lit "i" :: Lit "l" :: Lit "e" :: Digits :: Lit "_" :: Digits
         :: Lit "_" :: Digits :: [Dot; Lit "n"; Lit "p"; Lit "z"]).
    change ("Tile" +:+ ?x) with (String "T" (String "i" (String "l" (String "e" x)))).
    rewrite !match_lit.
    apply match_digits; [exact Da|reflexivity|].
    change ("_" +:+ ?x) with (String "_" x). rewrite match_lit.
    apply match_digits; [exact Db|reflexivity|].
    change ("_" +:+ ?x) with (String "_" x). rewrite match_lit.
    apply match_digits; [exact Dc|simpl; rewrite Hch; reflexivity|].
    rewrite (match_dot ch _ _ Hnl).
    change ("npz" +:+ rest) with (String "n" (String "p" (String "z" rest))).
    rewrite !match_lit. reflexivity. }
  unfold parse_name. rewrite (re_search_here _ _ _ Hm).
  rewrite (py_int_digits _ Da), (py_int_digits _ Db), (py_int_digits _ Dc).
  reflexivity.
Qed.

Section LookupMore.

Variable load : Path -> result SubtileFile.

Lemma find_subtile_at_first (ds : DSE) (t i j : Z) (k : nat) (p : Path) :
  tiles ds !! k = Some p ->
  parse_name (name p) = Some (t, i, j) ->
  (forall k' q, k' < k -> tiles ds !! k' = Some q ->
     exists tr, parse_name (name q) = Some tr /\ tr <> (t, i, j)) ->
  find_subtile load ds t i j = getitem load ds (Z.of_nat k).
Proof.
  intros Hk Hparse Hbefore. unfold find_subtile.
  rewrite <- (take_drop_middle (tiles ds) k p Hk).
  rewrite find_loop_skip.
  - rewrite (find_loop_parsed load ds t i j _ p _ (t, i, j) Hparse).
    rewrite decide_True by reflexivity.
    rewrite length_take. apply lookup_lt_Some in Hk.
    do 2 f_equal. lia.
  - intros q Hq. apply list_elem_of_lookup in Hq as (k' & Hk').
    pose proof (lookup_lt_Some _ _ _ Hk') as Hlt. rewrite length_take in Hlt.
    rewrite lookup_take_lt in Hk' by lia.
    apply (Hbefore k' q); [lia|exact Hk'].
Qed.

(** X17. [find_subtile] returns what the positional accessor returns at the
    first position whose file name parses to the requested triple, when the
    pattern matches every name before it; the files after that position
    play no part. *)
Theorem find_subtile_first_match (ds : DSE) (t i j : Z) (k : nat) (p : Path) :
  tiles ds !! k = Some p ->
  parse_name (name p) = Some (t, i, j) ->
  (forall k' q, k' < k -> tiles ds !! k' = Some q ->
     exists tr, parse_name (name q) = Some tr /\ tr <> (t, i, j)) ->
  find_subtile load ds t i j = getitem load ds (Z.of_nat k).
Proof. apply find_subtile_at_first. Qed.

(** X20. The lookup reads the three groups as decimal numbers and takes the
    dot of the pattern for any character: a file named
    [Tile<a>_<b>_<c><ch>npz<rest>], with digit runs [a], [b], [c] (leading
    zeros allowed) and any character [ch] that is neither a digit nor a
    newline, is found under the values of [a], [b] and [c]. *)
Theorem find_subtile_accepts_spellings (ds : DSE) (k : nat) (p : Path)
    (a b c rest : string) (ch : ascii) :
  tiles ds !! k = Some p ->
  name p = "Tile" +:+ a +:+ "_" +:+ b +:+ "_" +:+ c +:+ String ch ("npz" +:+ rest) ->
  digit_string a -> digit_string b -> digit_string c ->
  is_digit ch = false -> ch <> newline ->
  (forall k' q, k' < k -> tiles ds !! k' = Some q ->
     exists tr, parse_name (name q) = Some tr /\
                tr <> (int_acc a 0, int_acc b 0, int_acc c 0)) ->
  find_subtile load ds (int_acc a 0) (int_acc b 0) (int_acc c 0)
  = getitem load ds (Z.of_nat k).
Proof.
  intros Hk Hname Da Db Dc Hch Hnl Hbefore.
  apply (find_subtile_at_first ds _ _ _ k p Hk); [|exact Hbefore].
  rewrite Hname. apply parse_name_shape; assumption.
Qed.

Lemma find_loop_sound (ds : DSE) (t i j : Z) (rest : list Path) :
  forall k r,
    find_loop load ds t i j k rest = OK r ->
    exists n p,
      rest !! n = Some p /\ parse_name (name p) = Some (t, i, j) /\
      getitem load ds (Z.of_nat (k + n)) = OK r.
Proof.
  induction rest as [|q rest IH]; intros k r Hr; [discriminate|].
  destruct (re_search pattern (name q)) as [g|] eqn:Hs.
  - destruct (re_search_pattern _ _ Hs) as (a & b & c & _ & _ & _ & _ & Hp).
    rewrite (find_loop_parsed load ds t i j k q rest _ Hp) in Hr.
    destruct (decide ((t, i, j) = (int_acc a 0, int_acc b 0, int_acc c 0))) as [Heq|Hne].
    + exists 0, q. rewrite Nat.add_0_r. rewrite Heq. auto.
    + destruct (IH _ _ Hr) as (n & p & Hn & Hpn & Hget).
      exists (S n), p. replace (k + S n) with (S k + n) by lia. auto.
  - rewrite (find_loop_unmatched load ds t i j k q rest Hs) in Hr. discriminate.
Qed.

(** X18. A sample that [find_subtile] returns is the sample of a file of
    the list whose name parses to the requested triple: the lookup never
    returns the sample of another tile. *)
Theorem find_subtile_sound (ds : DSE) (t i j : Z) (r : Sample * list SatelliteMetadata) :
  find_subtile load ds t i j = OK r ->
  exists k p,
    tiles ds !! k = Some p /\ parse_name (name p) = Some (t, i, j) /\
    getitem load ds (Z.of_nat k) = OK r.
Proof. intros Hr. apply (find_loop_sound ds t i j (tiles ds) 0 r Hr). Qed.

(** X19. With a negative tile id or coordinate, [find_subtile] never returns
    a sample: the names hold digits only, so it raises, on any file list. *)
Theorem find_subtile_negative (ds : DSE) (t i j : Z) :
  (t < 0 \/ i < 0 \/ j < 0)%Z ->
  exists e, find_subtile load ds t i j = Raise e.
Proof.
  intros Hneg. destruct (find_subtile load ds t i j) as [r|e] eqn:Hr; [|eauto].
  destruct (find_loop_sound ds t i j (tiles ds) 0 r Hr) as (k & p & _ & Hp & _).
  apply parse_name_nonneg in Hp. lia.
Qed.

End LookupMore.

(** X21. The file name that the lookup error reports for a triple of
    non-negative integers is a name the pattern reads back as that very
    triple, and no other triple has this file name. *)
Theorem tile_name_round_trip (t i j : Z) :
  (0 <= t)%Z -> (0 <= i)%Z -> (0 <= j)%Z ->
  parse_name (tile_name t i j) = Some (t, i, j) /\
  (forall t' i' j', tile_name t' i' j' = tile_name t i j -> (t', i', j') = (t, i, j)).
Proof.
  intros Ht Hi Hj. split; [apply parse_tile_name; assumption|].
  intros t' i' j' Heq. apply not_found_message_inj.
  unfold not_found_message. rewrite Heq. reflexivity.
Qed.

(** ** The further properties on concrete datasets *)

(** Membership in a list of literals, decided by evaluation. *)
Ltac decide_member :=
  first
    [ apply (bool_decide_unpack _); vm_compute; exact I
    | let H := fresh in
      intros H; apply (bool_decide_pack _) in H; vm_compute in H; destruct H ].

Ltac literal_cases Hv :=
  repeat (apply elem_of_cons in Hv as [->|Hv]); [..|by apply elem_of_nil in Hv].


Lemma getitem_negative_index_witness :
  getitem example_load (example_ds None ["Tile1_0_0.npz"; "Tile2_0_0.npz"]) (-1)
  = getitem example_load (example_ds None ["Tile1_0_0.npz"; "Tile2_0_0.npz"])
      (Z.of_nat (len (example_ds None ["Tile1_0_0.npz"; "Tile2_0_0.npz"])) + -1).
Proof.
  apply (getitem_negative_index example_load
           (example_ds None ["Tile1_0_0.npz"; "Tile2_0_0.npz"]) (-1)).
  vm_compute. split; [discriminate|reflexivity].
Defined.

Lemma getitem_index_error_witness :
  getitem example_load (example_ds None ["Tile1_0_0.npz"; "Tile2_0_0.npz"]) 2
  = Raise IndexError.
Proof.
  apply (getitem_index_error example_load
           (example_ds None ["Tile1_0_0.npz"; "Tile2_0_0.npz"]) 2).
  right. vm_compute. discriminate.
Defined.

Lemma getitem_missing_gt_witness :
  getitem edge_load (edge_ds (Some [("sentinel1", ["VH"])]) ["Tile3_0_0.npz"]) 0
  = Raise (KeyError "gt").
Proof.
  apply (getitem_missing_gt edge_load 1 1
           (edge_ds (Some [("sentinel1", ["VH"])]) ["Tile3_0_0.npz"]) 0
           (mk_path "data" "Tile3_0_0.npz") no_gt_file);
    [lia|reflexivity|reflexivity|vm_compute; reflexivity|reflexivity].
Defined.

Lemma getitem_bad_time_axis_witness :
  getitem edge_load (edge_ds None ["Tile4_0_0.npz"]) 0
  = Raise (ValueError "cannot select an axis to squeeze out which has size not equal to one").
Proof.
  apply (getitem_bad_time_axis edge_load 1 1 (edge_ds None ["Tile4_0_0.npz"]) 0
           (mk_path "data" "Tile4_0_0.npz") two_times_gt_file
           (mk_ndarray [2; 1; 1; 1] [4; 4]%Z uint8) 2 [1; 1; 1]);
    [lia|reflexivity|reflexivity|vm_compute; reflexivity|reflexivity|reflexivity|lia].
Defined.

Lemma getitem_transform_witness :
  exists stack' meta' s' X,
    select_bands (mk_DSE "data" None (Some add_ten) [mk_path "data" "Tile2_0_0.npz"])
      (Subtile_of_file small_file).1 (Subtile_of_file small_file).2 = OK (stack', meta', s') /\
    stack_loop stack' XList = OK X /\
    getitem example_load (mk_DSE "data" None (Some add_ten) [mk_path "data" "Tile2_0_0.npz"]) 0
    = match add_ten X (mk_ndarray [1; 1; 1] (data (mk_ndarray [1; 1; 1; 1] [4%Z] uint8)) uint8) with
      | OK (X', y') => OK ((X', sub_scalar y' 1, meta'), s')
      | Raise e => Raise e
      end.
Proof.
  apply (getitem_transform example_load 1 1
           (mk_DSE "data" None (Some add_ten) [mk_path "data" "Tile2_0_0.npz"]) 0
           (mk_path "data" "Tile2_0_0.npz") small_file (mk_ndarray [1; 1; 1; 1] [4%Z] uint8)
           [1; 1; 1] add_ten);
    [lia|reflexivity|reflexivity|vm_compute; reflexivity|reflexivity|reflexivity|reflexivity].
Defined.

(** There, the label 4 comes back as 4 + 10 - 1. *)
Example transform_then_shift :
  exists X m s,
    getitem example_load (mk_DSE "data" None (Some add_ten) [mk_path "data" "Tile2_0_0.npz"]) 0
    = OK ((X, mk_ndarray [1; 1; 1] [13%Z] uint8, m), s).
Proof. eexists _, _, _. vm_compute. reflexivity. Qed.

Lemma getitem_empty_selection_witness :
  exists s,
    getitem example_load (example_ds (Some []) ["Tile2_0_0.npz"]) 0
    = OK ((XList, sub_scalar (mk_ndarray [1; 1; 1] (data (mk_ndarray [1; 1; 1; 1] [4%Z] uint8)) uint8) 1,
           mk_metadata []), s).
Proof.
  apply (getitem_empty_selection example_load (example_ds (Some []) ["Tile2_0_0.npz"]) 0
           (mk_path "data" "Tile2_0_0.npz") small_file (mk_ndarray [1; 1; 1; 1] [4%Z] uint8) [1; 1; 1]);
    [lia|reflexivity|reflexivity|reflexivity|reflexivity|reflexivity|reflexivity].
Defined.

Lemma getitem_selection_missing_source_witness :
  getitem example_load
    (example_ds (Some [("sentinel1", ["VH"]); ("landsat", ["B1"]); ("viirs", ["0"])])
       ["Tile2_0_0.npz"]) 0
  = Raise (KeyError "landsat").
Proof.
  apply (getitem_selection_missing_source example_load 1 1
           (example_ds (Some [("sentinel1", ["VH"]); ("landsat", ["B1"]); ("viirs", ["0"])])
              ["Tile2_0_0.npz"]) 0
           (mk_path "data" "Tile2_0_0.npz") small_file
           [("sentinel1", ["VH"])] [("viirs", ["0"])] "landsat" ["B1"]);
    [lia|reflexivity|reflexivity|reflexivity|vm_compute; reflexivity| |left; reflexivity].
  intros Hin. apply list_elem_of_singleton in Hin. discriminate.
Defined.

Lemma stack_loop_empty_source_replaced_witness :
  stack_loop [("sentinel1", mk_ndarray [2; 0; 1; 1] [] int16);
              ("landsat", mk_ndarray [1; 1; 2; 2] [1; 2; 3; 4]%Z int16)] XList
  = stack_loop [("landsat", mk_ndarray [1; 1; 2; 2] [1; 2; 3; 4]%Z int16)] XList.
Proof.
  apply (stack_loop_empty_source_replaced "sentinel1" "landsat"
           (mk_ndarray [2; 0; 1; 1] [] int16) (mk_ndarray [1; 1; 2; 2] [1; 2; 3; 4]%Z int16) 2 0 1 1 []);
    [discriminate|discriminate|reflexivity|reflexivity].
Defined.

Lemma getitem_spatial_mismatch_witness :
  getitem edge_load (edge_ds None ["Tile5_0_0.npz"]) 0
  = Raise (ValueError
      "all the input array dimensions except for the concatenation axis must match exactly").
Proof.
  apply (getitem_spatial_mismatch edge_load 1 1 (edge_ds None ["Tile5_0_0.npz"]) 0
           (mk_path "data" "Tile5_0_0.npz") mismatch_file
           [("sentinel1", mk_ndarray [2; 2; 1; 1] [10; 11; 20; 21]%Z int16)]
           [("gt", mk_ndarray [1; 1; 1; 1] [4]%Z uint8)]
           "landsat" (mk_ndarray [1; 1; 2; 2] [1; 2; 3; 4]%Z int16)
           (mk_ndarray [1; 1; 1; 1] [4]%Z uint8) 1 1 2 2);
    [lia|reflexivity|reflexivity|reflexivity|reflexivity|reflexivity|vm_compute; reflexivity
    |vm_compute; discriminate|discriminate|reflexivity|discriminate].
Defined.

Lemma select_indices_membership_witness :
  select_indices ["B02"; "B03"] ["B03"; "B99"; "B03"] = select_indices ["B02"; "B03"] ["B03"].
Proof.
  apply (select_indices_membership ["B02"; "B03"] ["B03"; "B99"; "B03"] ["B03"]).
  intros v Hv. literal_cases Hv; split; first [decide_member | intros _; decide_member].
Defined.

Lemma select_all_bands_identity_witness :
  take_bands (mk_ndarray [2; 3; 4; 4] (Z.of_nat <$> seq 0 96) int16)
    (select_indices ["B02"; "B03"; "B04"] ["B04"; "B08"; "B03"; "B02"])
  = OK (mk_ndarray [2; 3; 4; 4] (Z.of_nat <$> seq 0 96) int16).
Proof.
  apply (select_all_bands_identity (mk_ndarray [2; 3; 4; 4] (Z.of_nat <$> seq 0 96) int16)
           2 3 4 4 [] ["B02"; "B03"; "B04"] ["B04"; "B08"; "B03"; "B02"]);
    [reflexivity|reflexivity|reflexivity|].
  intros v Hv. literal_cases Hv; decide_member.
Defined.

Lemma select_no_band_empty_witness :
  take_bands (mk_ndarray [2; 2; 1; 1] [10; 11; 20; 21]%Z int16)
    (select_indices ["VV"; "VH"] ["HH"])
  = OK (mk_ndarray [2; 0; 1; 1] [] int16).
Proof.
  apply (select_no_band_empty (mk_ndarray [2; 2; 1; 1] [10; 11; 20; 21]%Z int16) 2 2 1 1 []
           ["VV"; "VH"] ["HH"]); [reflexivity|].
  intros v Hv Hin. apply list_elem_of_singleton in Hin. subst v.
  repeat (apply elem_of_cons in Hv as [Hv|Hv]; [discriminate|]). by apply elem_of_nil in Hv.
Defined.

Lemma select_bands_none_copies_witness :
  exists m' s',
    select_bands (example_ds None ["Tile2_0_0.npz"])
      (Subtile_of_file small_file).1 (Subtile_of_file small_file).2
    = OK (file_stack small_file, m', s') /\
    dict_keys (satellites m') = dict_keys (file_bands small_file) /\
    (forall k, bands_of s' m' k = dict_get k (file_bands small_file)) /\
    (forall k, bands_of s' (tile_metadata (Subtile_of_file small_file).1) k
               = dict_get k (file_bands small_file)) /\
    (forall k l', dict_get k (satellites m') = Some l' ->
                  length (Subtile_of_file small_file).2 <= l').
Proof.
  apply (select_bands_none_copies (example_ds None ["Tile2_0_0.npz"]) small_file).
  reflexivity.
Defined.

Lemma getitem_input_elements_witness :
  exists filtered X y m s,
    select_bands (example_ds (Some [("viirs", ["0"]); ("sentinel1", ["VH"])]) ["Tile2_0_0.npz"])
      (Subtile_of_file small_file).1 (Subtile_of_file small_file).2 = OK (filtered, m, s) /\
    getitem example_load
      (example_ds (Some [("viirs", ["0"]); ("sentinel1", ["VH"])]) ["Tile2_0_0.npz"]) 0
    = OK ((X, y, m), s) /\
    x_wf X /\
    x_data X = concat (data <$> non_gt filtered).
Proof.
  apply (getitem_input_elements example_load 1 1
           (example_ds (Some [("viirs", ["0"]); ("sentinel1", ["VH"])]) ["Tile2_0_0.npz"]) 0
           (mk_path "data" "Tile2_0_0.npz") small_file (mk_ndarray [1; 1; 1; 1] [4%Z] uint8) [1; 1; 1]);
    [lia|reflexivity|reflexivity|reflexivity|vm_compute; reflexivity
    |repeat (constructor; [reflexivity|]); constructor|reflexivity|reflexivity].
Defined.

(** There, the selection puts viirs in front of sentinel1. *)
Example input_follows_selection_order :
  exists y m s,
    getitem example_load
      (example_ds (Some [("viirs", ["0"]); ("sentinel1", ["VH"])]) ["Tile2_0_0.npz"]) 0
    = OK ((XArray (mk_ndarray [3; 1; 1] [5; 11; 21]%Z int16), y, m), s).
Proof. eexists _, _, _. vm_compute. reflexivity. Qed.

Lemma select_bands_keys_witness :
  exists filtered m s,
    select_bands (example_ds (Some [("viirs", ["0"]); ("sentinel1", ["VH"])]) ["Tile2_0_0.npz"])
      (Subtile_of_file small_file).1 (Subtile_of_file small_file).2 = OK (filtered, m, s) /\
    dict_keys filtered = dict_keys [("viirs", ["0"]); ("sentinel1", ["VH"])] /\
    dict_keys (satellites m) = dict_keys [("viirs", ["0"]); ("sentinel1", ["VH"])].
Proof.
  apply (select_bands_keys 1 1
           (example_ds (Some [("viirs", ["0"]); ("sentinel1", ["VH"])]) ["Tile2_0_0.npz"])
           [("viirs", ["0"]); ("sentinel1", ["VH"])] small_file);
    [reflexivity|vm_compute; reflexivity].
Defined.

Lemma find_subtile_first_match_witness :
  find_subtile example_load (example_ds None ["Tile2_0_0.npz"; "Tile01_0_0.npz"]) 1 0 0
  = getitem example_load (example_ds None ["Tile2_0_0.npz"; "Tile01_0_0.npz"]) (Z.of_nat 1).
Proof.
  apply (find_subtile_first_match example_load
           (example_ds None ["Tile2_0_0.npz"; "Tile01_0_0.npz"]) 1 0 0 1
           (mk_path "data" "Tile01_0_0.npz")); [reflexivity|vm_compute; reflexivity|].
  intros k' q Hk' Hq. destruct k' as [|k']; [|lia].
  injection Hq as <-. exists (2, 0, 0)%Z. split; [vm_compute; reflexivity|discriminate].
Defined.

Lemma find_subtile_sound_witness :
  exists r,
    find_subtile example_load (example_ds None ["Tile2_0_0.npz"]) 2 0 0 = OK r /\
    exists k p,
      tiles (example_ds None ["Tile2_0_0.npz"]) !! k = Some p /\
      parse_name (name p) = Some (2, 0, 0)%Z /\
      getitem example_load (example_ds None ["Tile2_0_0.npz"]) (Z.of_nat k) = OK r.
Proof.
  destruct (find_subtile example_load (example_ds None ["Tile2_0_0.npz"]) 2 0 0)
    as [r|e] eqn:E.
  - exists r. split; [reflexivity|].
    apply (find_subtile_sound example_load (example_ds None ["Tile2_0_0.npz"]) 2 0 0 r E).
  - vm_compute in E. discriminate E.
Defined.

Lemma find_subtile_negative_witness :
  exists e,
    find_subtile example_load (example_ds None ["Tile1_0_0.npz"; "Tile2_0_0.npz"]) (-1) 0 0
    = Raise e.
Proof.
  apply (find_subtile_negative example_load
           (example_ds None ["Tile1_0_0.npz"; "Tile2_0_0.npz"]) (-1) 0 0).
  left. lia.
Defined.

Lemma find_subtile_accepts_spellings_witness :
  find_subtile edge_load (edge_ds None ["Tile3_0_0.npz"; "Tile007_01_2_npz.npz"])
    (int_acc "007" 0) (int_acc "01" 0) (int_acc "2" 0)
  = getitem edge_load (edge_ds None ["Tile3_0_0.npz"; "Tile007_01_2_npz.npz"]) (Z.of_nat 1).
Proof.
  apply (find_subtile_accepts_spellings edge_load
           (edge_ds None ["Tile3_0_0.npz"; "Tile007_01_2_npz.npz"]) 1
           (mk_path "data" "Tile007_01_2_npz.npz") "007" "01" "2" ".npz" "_"%char);
    [reflexivity|reflexivity|split; [reflexivity|discriminate]
    |split; [reflexivity|discriminate]|split; [reflexivity|discriminate]
    |reflexivity|discriminate|].
  intros k' q Hk' Hq. destruct k' as [|k']; [|lia].
  injection Hq as <-. exists (3, 0, 0)%Z. split; [vm_compute; reflexivity|discriminate].
Defined.

(** There, the file is found under (7, 1, 2) and its sample returned. *)
Example find_subtile_padded_name :
  exists r,
    find_subtile edge_load (edge_ds None ["Tile3_0_0.npz"; "Tile007_01_2_npz.npz"]) 7 1 2
    = OK r.
Proof. eexists. vm_compute. reflexivity. Qed.

Lemma tile_name_round_trip_witness :
  parse_name (tile_name 12 0 7) = Some (12, 0, 7)%Z /\
  (forall t' i' j', tile_name t' i' j' = tile_name 12 0 7 -> (t', i', j') = (12, 0, 7)%Z).
Proof. apply (tile_name_round_trip 12 0 7); lia. Defined.
